(** * Flight visualizer: the densification pipeline of [update_graph]

    A shallow embedding of the data-preparation part of [src/app.py]
    (function [update_graph], from the line
    [df['departure_time'] = pd.to_datetime(...)] down to the slider
    labels) and the properties of its timeline, interpolation, bearing,
    colour assignment and frame assembly.

    Conventions of the embedding.
    - A pandas [Timestamp] is its [int64] count of nanoseconds since the
      epoch, a [Z]; [NaT] is [None].  A [Timedelta] is a [Z] of nanoseconds.
    - A Python [float] that holds a coordinate, a duration or a ratio is an
      exact rational [Q] ([nan] is [None] where the code can produce it);
      rounding of binary64 arithmetic is outside the model, and equality of
      such values is [Qeq].  The trigonometry of [calculate_bearing] is over
      the real numbers [R].
    - The uploaded table [df] is the list of its rows, in row order.
    - A Python [dict] is a [gmap]; a dict comprehension inserts its items
      from left to right, so a later item replaces an earlier one. *)

From Stdlib Require Import ZArith QArith Qround Reals Psatz Lia List String Ascii.
From stdpp Require Import gmap strings list fin_maps sorting.

Open Scope Z_scope.

(** ** Python runtime: exceptions, floats, [int] and [max] *)

Module Py.

Inductive exn : Type :=
| ValueError (msg : string)
| IndexError (msg : string)
| ZeroDivisionError (msg : string).

(** [str(e)] *)
Definition str (e : exn) : string :=
  match e with
  | ValueError msg => msg
  | IndexError msg => msg
  | ZeroDivisionError msg => msg
  end.

Inductive result (A : Type) : Type :=
| Ok (a : A)
| Raise (e : exn).
Arguments Ok {A} a.
Arguments Raise {A} e.

#[global] Instance result_ret : MRet result := fun A a => Ok a.
#[global] Instance result_bind : MBind result := fun A B k m =>
  match m with
  | Ok a => k a
  | Raise e => Raise e
  end.

(** A float: an exact rational, or [nan]. *)
Definition float : Type := option Q.

Definition fdiv (x : float) (y : Q) : float := (fun q => q / y)%Q <$> x.
Definition fmul (x : float) (y : Q) : float := (fun q => q * y)%Q <$> x.

(** [x / y] on two floats: a zero divisor raises. *)
Definition truediv (x y : Q) : result Q :=
  if Qeq_bool y 0 then Raise (ZeroDivisionError "float division by zero")
  else Ok (x / y)%Q.

(** [int(x)]: truncation toward zero; [int(nan)] raises. *)
Definition int (x : float) : result Z :=
  match x with
  | Some q => Ok (Z.quot (Qnum q) (Z.pos (Qden q)))
  | None => Raise (ValueError "cannot convert float NaN to integer")
  end.

End Py.

(** ** numpy and pandas: the library calls of the pipeline *)

Module Pd.

(** [Series.min()] and [Series.max()] of a datetime column: [NaT] on an
    empty column. *)
Definition series_min (col : list Z) : option Z :=
  match col with
  | [] => None
  | x :: rest => Some (foldl Z.min x rest)
  end.

Definition series_max (col : list Z) : option Z :=
  match col with
  | [] => None
  | x :: rest => Some (foldl Z.max x rest)
  end.

(** [a - b] on timestamps; [NaT] propagates. *)
Definition ts_sub (a b : option Z) : option Z :=
  match a, b with
  | Some x, Some y => Some (x - y)
  | _, _ => None
  end.

(** [Timedelta.total_seconds()]: nanoseconds over [1e9]. *)
Definition total_seconds (td : Z) : Q := (inject_Z td / inject_Z 1000000000)%Q.

(** [total_seconds()] of a possibly-[NaT] difference is [nan] on [NaT]. *)
Definition total_seconds_nat (td : option Z) : Py.float := total_seconds <$> td.

(** [np.linspace(0, stop, num, dtype='int64')]: with [div = num - 1],
    the entries are [floor (i * (stop / div))] for [i = 0 .. num - 1], the
    last one being set to [stop]; for [num = 1] the only entry is [0]. *)
Definition linspace_entry (stop div i : Z) : Z :=
  if 0 <? div then
    if i =? div then stop
    else Qfloor (inject_Z i * (inject_Z stop / inject_Z div))
  else i * stop.

Definition linspace (stop num : Z) : list Z :=
  map (linspace_entry stop (num - 1)) (seqZ 0 num).

(** [pd.date_range(start=start, end=end, periods=periods)] with no
    frequency: [linspace(0, end - start, periods) + start]; it refuses
    [NaT] bounds. *)
Definition date_range (start end_ : option Z) (periods : Z) : Py.result (list Z) :=
  match start, end_ with
  | Some s, Some e => Py.Ok (map (Z.add s) (linspace (e - s) periods))
  | _, _ => Py.Raise (Py.ValueError "Neither `start` nor `end` can be NaT")
  end.

(** [pd.unique]: the distinct values in order of first appearance. *)
Fixpoint unique_from {A} `{EqDecision A} (seen : list A) (l : list A) : list A :=
  match l with
  | [] => []
  | x :: rest =>
      if bool_decide (x ∈ seen) then unique_from seen rest
      else x :: unique_from (x :: seen) rest
  end.

Definition unique {A} `{EqDecision A} (l : list A) : list A := unique_from [] l.

(** [DataFrame.drop_duplicates(subset=key)]: the first row of each key. *)
Fixpoint drop_duplicates_from {A K} `{EqDecision K} (key : A → K)
    (seen : list K) (rows : list A) : list A :=
  match rows with
  | [] => []
  | r :: rest =>
      if bool_decide (key r ∈ seen) then drop_duplicates_from key seen rest
      else r :: drop_duplicates_from key (key r :: seen) rest
  end.

Definition drop_duplicates {A K} `{EqDecision K} (key : A → K) (rows : list A) : list A :=
  drop_duplicates_from key [] rows.

(** [Timestamp.strftime('%H:%M')]: hour and minute of the day, two digits
    each. *)
Definition digit (n : Z) : string :=
  String (ascii_of_nat (48 + Z.to_nat (n mod 10))) EmptyString.

Definition two_digits (n : Z) : string := digit (n / 10) +:+ digit n.

Definition strftime_HM (t : Z) : string :=
  two_digits ((t / 3600000000000) mod 24) +:+ ":" +:+ two_digits ((t / 60000000000) mod 60).

End Pd.

(** A dict built by a comprehension over [items]. *)
Definition dict_of {V} (items : list (string * V)) : gmap string V :=
  foldl (fun d kv => <[kv.1 := kv.2]> d) ∅ items.

(** ** The table and the pipeline of [update_graph] *)

(** One row of the uploaded table, with the required columns; the two time
    columns are already parsed by [pd.to_datetime]. *)
Record Flight : Type := mkFlight {
  flight_id : string;
  origin_code : string;
  origin_lat : Q;
  origin_lon : Q;
  destination_code : string;
  dest_lat : Q;
  dest_lon : Q;
  departure_time : Z;
  arrival_time : Z
}.

(** One item of [densified_data]. *)
Record DensifiedRow : Type := mkRow {
  row_flight_id : string;
  row_origin_code : string;
  Frame : Z;
  Current_Lat : Q;
  Current_Lon : Q
}.

(** *** Timeline *)

Definition start_time (df : list Flight) : option Z :=
  Pd.series_min (map departure_time df).

Definition end_time (df : list Flight) : option Z :=
  Pd.series_max (map arrival_time df).

Definition total_hours (df : list Flight) : Py.float :=
  Py.fdiv (Pd.total_seconds_nat (Pd.ts_sub (end_time df) (start_time df))) (inject_Z 3600).

Definition total_frames (df : list Flight) (frames_per_hour : Z) : Py.result Z :=
  n ← Py.int (Py.fmul (total_hours df) (inject_Z frames_per_hour));
  Py.Ok (Z.max n 1).

Definition animation_timestamps (df : list Flight) (frames_per_hour : Z)
    : Py.result (list Z) :=
  n ← total_frames df frames_per_hour;
  Pd.date_range (start_time df) (end_time df) n.

(** *** Interpolation *)

(** [flight['departure_time'] <= timestamp <= flight['arrival_time']] *)
Definition active (flight : Flight) (timestamp : Z) : bool :=
  (departure_time flight <=? timestamp) && (timestamp <=? arrival_time flight).

Definition flight_duration (flight : Flight) : Q :=
  Pd.total_seconds (arrival_time flight - departure_time flight).

Definition time_elapsed (flight : Flight) (timestamp : Z) : Q :=
  Pd.total_seconds (timestamp - departure_time flight).

Definition progress_ratio (flight : Flight) (timestamp : Z) : Py.result Q :=
  if Qlt_le_dec 0 (flight_duration flight)
  then Py.truediv (time_elapsed flight timestamp) (flight_duration flight)
  else Py.Ok 0%Q.

(** The body of the [if] of the inner loop: the item appended for a flight
    that is active at [timestamp]. *)
Definition densified_item (timestamp : Z) (flight : Flight) : Py.result DensifiedRow :=
  progress_ratio ← progress_ratio flight timestamp;
  let current_lat :=
    (origin_lat flight + (dest_lat flight - origin_lat flight) * progress_ratio)%Q in
  let current_lon :=
    (origin_lon flight + (dest_lon flight - origin_lon flight) * progress_ratio)%Q in
  Py.Ok {| row_flight_id := flight_id flight;
           row_origin_code := origin_code flight;
           Frame := timestamp;
           Current_Lat := current_lat;
           Current_Lon := current_lon |}.

(** The inner loop [for i, flight in df.iterrows()], threading the list
    [densified_data] it appends to. *)
Fixpoint densify_flights (timestamp : Z) (rows : list Flight)
    (densified_data : list DensifiedRow) : Py.result (list DensifiedRow) :=
  match rows with
  | [] => Py.Ok densified_data
  | flight :: rest =>
      if active flight timestamp then
        item ← densified_item timestamp flight;
        densify_flights timestamp rest (densified_data ++ [item])
      else densify_flights timestamp rest densified_data
  end.

(** The outer loop [for timestamp in animation_timestamps]. *)
Fixpoint densify_from (timestamps : list Z) (df : list Flight)
    (densified_data : list DensifiedRow) : Py.result (list DensifiedRow) :=
  match timestamps with
  | [] => Py.Ok densified_data
  | timestamp :: rest =>
      densified_data ← densify_flights timestamp df densified_data;
      densify_from rest df densified_data
  end.

Definition densify (timestamps : list Z) (df : list Flight) : Py.result (list DensifiedRow) :=
  densify_from timestamps df [].

(** *** Colours and the static airport layer *)

(** [all_airports]: the two code columns flattened column by column (the
    origin codes of all rows, then the destination codes), then [pd.unique]. *)
Definition all_airports (df : list Flight) : list string :=
  Pd.unique (map origin_code df ++ map destination_code df).

Definition bright_colors : list string :=
  [ "#FF6B6B"; "#4ECDC4"; "#45B7D1"; "#96CEB4"; "#FFEAA7";
    "#DDA0DD"; "#98D8C8"; "#F7DC6F"; "#BB8FCE"; "#85C1E9";
    "#F8C471"; "#82E0AA"; "#F1948A"; "#85C1E9"; "#D7BDE2" ]%string.

(** [bright_colors[i % len(bright_colors)]] *)
Definition palette_color (i : nat) : string :=
  nth (i mod length bright_colors)%nat bright_colors ""%string.

Definition airport_colors (df : list Flight) : gmap string string :=
  dict_of (imap (fun i airport => (airport, palette_color i)) (all_airports df)).

Record AirportLocation : Type := mkAirport {
  code : string;
  lat : Q;
  lon : Q
}.

Definition origin_airports (df : list Flight) : list AirportLocation :=
  map (fun f => mkAirport (origin_code f) (origin_lat f) (origin_lon f)) df.

Definition dest_airports (df : list Flight) : list AirportLocation :=
  map (fun f => mkAirport (destination_code f) (dest_lat f) (dest_lon f)) df.

Definition all_airport_locations (df : list Flight) : list AirportLocation :=
  Pd.drop_duplicates code (origin_airports df ++ dest_airports df).

(** [airport_marker_colors]; [dict.get] is [None] on a missing key. *)
Definition airport_marker_colors (df : list Flight) : list (option string) :=
  map (fun a => airport_colors df !! code a) (all_airport_locations df).

(** *** Bearing *)

Definition radians (x : R) : R := (x * PI / 180)%R.
Definition degrees (x : R) : R := (x * 180 / PI)%R.

(** [math.atan2(y, x)], the angle of the point [(x, y)] in [(-PI, PI]]. *)
Definition atan2 (y x : R) : R :=
  if Rlt_dec 0 x then atan (y / x)
  else if Rlt_dec x 0 then
    if Rle_dec 0 y then (atan (y / x) + PI)%R else (atan (y / x) - PI)%R
  else if Rlt_dec 0 y then (PI / 2)%R
  else if Rlt_dec y 0 then (- PI / 2)%R
  else 0%R.

(** [a % m] on floats, for a positive [m]: the remainder of the floored
    division. *)
Definition fmod (a m : R) : R := (a - m * IZR (Int_part (a / m)))%R.

Definition calculate_bearing (lat1 lon1 lat2 lon2 : R) : R :=
  let lat1 := radians lat1 in
  let lon1 := radians lon1 in
  let lat2 := radians lat2 in
  let lon2 := radians lon2 in
  let dlon := (lon2 - lon1)%R in
  let y := (sin dlon * cos lat2)%R in
  let x := (cos lat1 * sin lat2 - sin lat1 * cos lat2 * cos dlon)%R in
  let bearing := atan2 y x in
  let bearing := degrees bearing in
  fmod (bearing + 360) 360.

Definition flight_bearing (flight : Flight) : R :=
  calculate_bearing (Q2R (origin_lat flight)) (Q2R (origin_lon flight))
                    (Q2R (dest_lat flight)) (Q2R (dest_lon flight)).

Definition bearing_map (df : list Flight) : gmap string R :=
  dict_of (map (fun flight => (flight_id flight, flight_bearing flight)) df).

(** *** The densified table and the frames *)

(** A row of [densified_df] once the columns [bearing] and [hover_text] are
    added; [Series.map] with a dict gives [None] (a missing value) on a key
    the dict lacks. *)
Record PlaneRow : Type := mkPlaneRow {
  base : DensifiedRow;
  bearing : option R;
  hover_text : string
}.

Definition plane_row (df : list Flight) (r : DensifiedRow) : PlaneRow :=
  {| base := r;
     bearing := bearing_map df !! row_flight_id r;
     hover_text :=
       "<b>" +:+ row_flight_id r +:+ "</b><br>Origin: " +:+ row_origin_code r |}.

Definition densified_df (df : list Flight) (densified_data : list DensifiedRow)
    : list PlaneRow :=
  map (plane_row df) densified_data.

(** The marker of one plane in a [go.Scattermap] trace. *)
Record Marker : Type := mkMarker {
  m_lat : Q;
  m_lon : Q;
  m_angle : option R;
  m_color : option string;
  m_text : string
}.

Definition plane_marker (df : list Flight) (r : PlaneRow) : Marker :=
  {| m_lat := Current_Lat (base r);
     m_lon := Current_Lon (base r);
     m_angle := bearing r;
     m_color := airport_colors df !! row_origin_code (base r);
     m_text := hover_text r |}.

(** [densified_df[densified_df['Frame'] == timestamp]] *)
Definition frame_df (ddf : list PlaneRow) (timestamp : Z) : list PlaneRow :=
  List.filter (fun r => Frame (base r) =? timestamp) ddf.

Definition initial_frame_df (ddf : list PlaneRow) : list PlaneRow :=
  match Pd.series_min (map (fun r => Frame (base r)) ddf) with
  | Some m => frame_df ddf m
  | None => []
  end.

(** [densified_df['Frame'].unique()] *)
Definition frame_timestamps (ddf : list PlaneRow) : list Z :=
  Pd.unique (map (fun r => Frame (base r)) ddf).

(** A [go.Frame]: its name is [str(i)], kept here as the index [i]. *)
Record GoFrame : Type := mkGoFrame {
  name : nat;
  data : list Marker
}.

Definition frames (df : list Flight) (ddf : list PlaneRow) : list GoFrame :=
  imap (fun i timestamp =>
          {| name := i; data := map (plane_marker df) (frame_df ddf timestamp) |})
       (frame_timestamps ddf).

(** One step of the slider: the frame it shows and its label. *)
Record SliderStep : Type := mkStep {
  step_frame : nat;
  label : string
}.

(** [animation_timestamps[i]]; an index past the end raises. *)
Definition timestamp_at (timestamps : list Z) (i : nat) : Py.result Z :=
  match timestamps !! i with
  | Some t => Py.Ok t
  | None => Py.Raise (Py.IndexError "index out of bounds")
  end.

Definition slider_steps (timestamps : list Z) (fs : list GoFrame)
    : Py.result (list SliderStep) :=
  mapM (fun '(i, frame) =>
          t ← timestamp_at timestamps i;
          Py.Ok {| step_frame := name frame; label := Pd.strftime_HM t |})
       (imap pair fs).

(** *** The figure and the callback *)

Record AirportMarker : Type := mkAirportMarker {
  am_location : AirportLocation;
  am_color : option string
}.

Record Figure : Type := mkFigure {
  planes : list Marker;
  airports : list AirportMarker;
  fig_frames : list GoFrame;
  sliders : list SliderStep
}.

Inductive Outcome : Type :=
| Graph (fig : Figure)
| NoFlightsDiv
| ErrorDiv (msg : string).

Definition static_airports (df : list Flight) : list AirportMarker :=
  map (fun a => mkAirportMarker a (airport_colors df !! code a)) (all_airport_locations df).

Definition build_figure (df : list Flight) (timestamps : list Z)
    (densified_data : list DensifiedRow) : Py.result Figure :=
  let ddf := densified_df df densified_data in
  let fs := frames df ddf in
  steps ← slider_steps timestamps fs;
  Py.Ok {| planes := map (plane_marker df) (initial_frame_df ddf);
           airports := static_airports df;
           fig_frames := fs;
           sliders := steps |}.

(** The body of the [try] block, from the data preparation on. *)
Definition update_graph_try (df : list Flight) (frames_per_hour : Z) : Py.result Outcome :=
  timestamps ← animation_timestamps df frames_per_hour;
  densified_data ← densify timestamps df;
  match densified_data with
  | [] => Py.Ok NoFlightsDiv
  | _ :: _ => fig ← build_figure df timestamps densified_data; Py.Ok (Graph fig)
  end.

(** [update_graph] on an uploaded table that has the required columns:
    [except Exception as e] turns any exception into the error message. *)
Definition update_graph (df : list Flight) (frames_per_hour : Z) : Outcome :=
  match update_graph_try df frames_per_hour with
  | Py.Ok out => out
  | Py.Raise e => ErrorDiv ("Error: " +:+ Py.str e)
  end.

(** ** Example tables *)

Definition t0700 : Z := 1759302000000000000.   (* 2025-10-01 07:00:00 *)
Definition minute_ns : Z := 60000000000.
Definition hour_ns : Z := 3600000000000.

(** The row of the downloadable template: DEL to BOM, 07:00 to 09:05. *)
Definition EX101 : Flight :=
  {| flight_id := "EX101"; origin_code := "DEL";
     origin_lat := 28.5665; origin_lon := 77.1031;
     destination_code := "BOM";
     dest_lat := 19.0896; dest_lon := 72.8656;
     departure_time := t0700; arrival_time := t0700 + 125 * minute_ns |}.

(** A table with one flight of one minute. *)
Definition short_hop : Flight :=
  {| flight_id := "EX102"; origin_code := "DEL";
     origin_lat := 28.5665; origin_lon := 77.1031;
     destination_code := "BOM";
     dest_lat := 19.0896; dest_lon := 72.8656;
     departure_time := t0700; arrival_time := t0700 + minute_ns |}.

(** Two rows: a flight from 07:00 to 09:00 and a flight that departs and
    arrives at 08:00. *)
Definition morning : Flight :=
  {| flight_id := "AM1"; origin_code := "DEL";
     origin_lat := 28.5665; origin_lon := 77.1031;
     destination_code := "BOM";
     dest_lat := 19.0896; dest_lon := 72.8656;
     departure_time := t0700; arrival_time := t0700 + 2 * hour_ns |}.

Definition instant : Flight :=
  {| flight_id := "ZERO"; origin_code := "BOM";
     origin_lat := 19.0896; origin_lon := 72.8656;
     destination_code := "BOM";
     dest_lat := 19.0896; dest_lon := 72.8656;
     departure_time := t0700 + hour_ns; arrival_time := t0700 + hour_ns |}.

(** Two rows with an idle gap: 07:00 to 08:00, then 10:00 to 11:00. *)
Definition early : Flight :=
  {| flight_id := "E1"; origin_code := "DEL";
     origin_lat := 28.5665; origin_lon := 77.1031;
     destination_code := "BOM";
     dest_lat := 19.0896; dest_lon := 72.8656;
     departure_time := t0700; arrival_time := t0700 + hour_ns |}.

Definition late : Flight :=
  {| flight_id := "L1"; origin_code := "BOM";
     origin_lat := 19.0896; origin_lon := 72.8656;
     destination_code := "DEL";
     dest_lat := 28.5665; dest_lon := 77.1031;
     departure_time := t0700 + 3 * hour_ns; arrival_time := t0700 + 4 * hour_ns |}.

(** A single flight of [n + 1] hours. *)
Definition long_haul (n : nat) : Flight :=
  {| flight_id := "LH"; origin_code := "DEL";
     origin_lat := 28.5665; origin_lon := 77.1031;
     destination_code := "BOM";
     dest_lat := 19.0896; dest_lon := 72.8656;
     departure_time := t0700;
     arrival_time := t0700 + (Z.of_nat n + 1) * hour_ns |}.

(** The error kinds the spec names. *)
Inductive ErrorKind : Type :=
| EmptyDataset
| InvertedTimeRange
| MalformedTimestamp
| EmptyPlotWindow.

(** The kind an outcome of [update_graph] lets its caller tell apart: the
    "No flights found" message is the spec's [EmptyPlotWindow]; the message
    of the [except] branch is the text of whatever exception was caught and
    carries no kind. *)
Definition reported_kind (out : Outcome) : option ErrorKind :=
  match out with
  | Graph _ => None
  | NoFlightsDiv => Some EmptyPlotWindow
  | ErrorDiv _ => None
  end.

(** *** The column check at the head of [update_graph] *)

Definition required_columns : list string :=
  [ "flight_id"; "origin_code"; "origin_lat"; "origin_lon";
    "destination_code"; "dest_lat"; "dest_lon";
    "departure_time"; "arrival_time" ]%string.

(** [', '.join(cols)] *)
Fixpoint join_comma (cols : list string) : string :=
  match cols with
  | [] => ""
  | [col] => col
  | col :: rest => col +:+ ", " +:+ join_comma rest
  end.

(** [[col for col in required_columns if col not in df.columns]], on the
    column names of the uploaded table once stripped. *)
Definition missing_columns (columns : list string) : list string :=
  filter (fun col => col ∉ columns) required_columns.

(** The [if missing_columns:] branch: the message returned instead of the
    pipeline, or [None] when the pipeline goes on. *)
Definition check_columns (columns : list string) : option Outcome :=
  match missing_columns columns with
  | [] => None
  | _ :: _ =>
      Some (ErrorDiv ("Error: The uploaded file is missing columns: "
                      +:+ join_comma (missing_columns columns)))
  end.

(** The columns of the one-row table of [download_template]. *)
Definition template_columns : list string :=
  [ "flight_id"; "airline"; "origin_code"; "origin_lat"; "origin_lon";
    "destination_code"; "dest_lat"; "dest_lon";
    "departure_time"; "arrival_time" ]%string.

(** A row whose arrival is before its departure. *)
Definition inverted : Flight :=
  {| flight_id := "INV"; origin_code := "DEL";
     origin_lat := 28.5665; origin_lon := 77.1031;
     destination_code := "BOM";
     dest_lat := 19.0896; dest_lon := 72.8656;
     departure_time := t0700 + hour_ns; arrival_time := t0700 |}.

(** [x] lies between [a] and [b], whichever is the larger. *)
Definition between (a x b : Q) : Prop :=
  (a <= x <= b)%Q ∨ (b <= x <= a)%Q.

(** A table of fourteen flights into one hub, from fourteen airports. *)
Definition spokes : list string :=
  [ "A00"; "A01"; "A02"; "A03"; "A04"; "A05"; "A06";
    "A07"; "A08"; "A09"; "A10"; "A11"; "A12"; "A13" ]%string.

Definition hub_table : list Flight :=
  map (fun c =>
         {| flight_id := c; origin_code := c;
            origin_lat := 28.5665; origin_lon := 77.1031;
            destination_code := "HUB";
            dest_lat := 19.0896; dest_lon := 72.8656;
            departure_time := t0700; arrival_time := t0700 + hour_ns |})
      spokes.

(** One day, in nanoseconds. *)
Definition day_ns : Z := 24 * hour_ns.

(** The frame count as integer arithmetic on nanoseconds. *)
Definition frame_count (start end_ frames_per_hour : Z) : Z :=
  Z.max ((end_ - start) * frames_per_hour / (3600 * 1000000000)) 1.

(** The window length in hours, as the spec words it. *)
Definition window_hours (start end_ : Z) : Q :=
  (inject_Z (end_ - start) / inject_Z 1000000000 / inject_Z 3600)%Q.

(** [start] is the earliest departure of the table. *)
Definition is_min_departure (df : list Flight) (start : Z) : Prop :=
  (∃ f, f ∈ df ∧ departure_time f = start)
  ∧ ∀ f, f ∈ df → start ≤ departure_time f.

(** [end_] is the latest arrival of the table. *)
Definition is_max_arrival (df : list Flight) (end_ : Z) : Prop :=
  (∃ f, f ∈ df ∧ arrival_time f = end_)
  ∧ ∀ f, f ∈ df → arrival_time f ≤ end_.

(** The values the interpolation loops compute, shown below to be what
    they return: the ratio, the item of a flight at a timestamp, the items
    of one timestamp and those of the whole timeline. *)
Definition ratio_value (flight : Flight) (timestamp : Z) : Q :=
  if Qlt_le_dec 0 (flight_duration flight)
  then (time_elapsed flight timestamp / flight_duration flight)%Q
  else 0%Q.

Definition item_value (timestamp : Z) (flight : Flight) : DensifiedRow :=
  {| row_flight_id := flight_id flight;
     row_origin_code := origin_code flight;
     Frame := timestamp;
     Current_Lat :=
       (origin_lat flight
        + (dest_lat flight - origin_lat flight) * ratio_value flight timestamp)%Q;
     Current_Lon :=
       (origin_lon flight
        + (dest_lon flight - origin_lon flight) * ratio_value flight timestamp)%Q |}.

Definition rows_at (df : list Flight) (timestamp : Z) : list DensifiedRow :=
  flat_map (fun flight =>
              if active flight timestamp then [item_value timestamp flight] else [])
           df.

Definition densified_rows (timestamps : list Z) (df : list Flight) : list DensifiedRow :=
  flat_map (rows_at df) timestamps.

(** The closed interval of a flight, and the items of a flight. *)
Definition in_interval (flight : Flight) (t : Z) : Prop :=
  departure_time flight ≤ t ≤ arrival_time flight.

#[global] Instance in_interval_dec (flight : Flight) (t : Z) :
  Decision (in_interval flight t).
Proof. unfold in_interval. apply _. Defined.

Definition points_of (flight : Flight) (rows : list DensifiedRow) : list DensifiedRow :=
  filter (fun r => row_flight_id r = flight_id flight) rows.

Definition points_at (flight : Flight) (t : Z) (rows : list DensifiedRow)
    : list DensifiedRow :=
  filter (fun r => Frame r = t) (points_of flight rows).

(** Some flight of the table is inside its interval at [t]. *)
Definition has_active (df : list Flight) (t : Z) : Prop :=
  Exists (fun flight => in_interval flight t) df.

#[global] Instance has_active_dec (df : list Flight) (t : Z) :
  Decision (has_active df t).
Proof. unfold has_active. apply _. Defined.

(** The [Frame] column of the items of one timestamp. *)
Definition frame_block (df : list Flight) (t : Z) : list Z :=
  map Frame (rows_at df t).

(** The figure [update_graph] returns once the timeline and the items are
    known and the slider steps are built. *)
Definition figure_of (df : list Flight) (timestamps : list Z)
    (rows : list DensifiedRow) (steps : list SliderStep) : Figure :=
  {| planes := map (plane_marker df) (initial_frame_df (densified_df df rows));
     airports := static_airports df;
     fig_frames := frames df (densified_df df rows);
     sliders := steps |}.

(** The slider step of the frame at position [i]. *)
Definition step_value (timestamps : list Z) (p : nat * GoFrame) : SliderStep :=
  {| step_frame := name p.2;
     label := Pd.strftime_HM (default 0 (timestamps !! p.1)) |}.

(** ** Facts about the library calls *)

Section Arithmetic.


Lemma inject_Z_nonzero (z : Z) : z ≠ 0 → ¬ (inject_Z z == 0)%Q.
Proof. intros Hz H. apply (inject_Z_injective z 0) in H. lia. Qed.

(** Truncation and floor agree once the result is clamped from below by
    one. *)
Lemma max_quot_floor (q : Q) :
  Z.max (Z.quot (Qnum q) (Z.pos (Qden q))) 1 = Z.max (Qfloor q) 1.
Proof.
  destruct q as [n d]. simpl.
  destruct (Z.le_gt_cases 0 n) as [Hn|Hn].
  - now rewrite Z.quot_div_nonneg by lia.
  - assert (n ÷ Z.pos d ≤ 0) by (apply Z.quot_le_upper_bound; lia).
    assert (n / Z.pos d < 0) by (apply Z.div_lt_upper_bound; lia).
    lia.
Qed.

Lemma floor_window_hours (start end_ fph : Z) :
  Qfloor (window_hours start end_ * inject_Z fph)
  = (end_ - start) * fph / (3600 * 1000000000).
Proof.
  rewrite Zdiv_Qdiv. apply Qfloor_comp. unfold window_hours.
  rewrite !inject_Z_mult. field.
Qed.

End Arithmetic.

Section Linspace.

Lemma linspace_entry_div (stop div i : Z) :
  0 < div → Pd.linspace_entry stop div i = i * stop / div.
Proof.
  intros Hdiv. unfold Pd.linspace_entry.
  destruct (Z.ltb_spec 0 div) as [_|]; [|lia].
  destruct (Z.eqb_spec i div) as [->|Hne].
  - rewrite Z.mul_comm, Z.div_mul; lia.
  - rewrite Zdiv_Qdiv. apply Qfloor_comp.
    rewrite inject_Z_mult. field. apply inject_Z_nonzero. lia.
Qed.


Lemma linspace_lookup (stop num : Z) (i : nat) (v : Z) :
  Pd.linspace stop num !! i = Some v
  ↔ Z.of_nat i < num ∧ v = Pd.linspace_entry stop (num - 1) (Z.of_nat i).
Proof.
  unfold Pd.linspace. rewrite list_lookup_fmap, fmap_Some. split.
  - intros (j & Hj & ->). apply lookup_seqZ in Hj as [-> ?]. auto.
  - intros [Hlt ->]. exists (Z.of_nat i). split; [|reflexivity].
    apply lookup_seqZ. lia.
Qed.


Lemma linspace_first (stop num : Z) :
  1 ≤ num → Pd.linspace stop num !! 0%nat = Some 0.
Proof.
  intros Hn. apply linspace_lookup. split; [lia|].
  destruct (Z.le_gt_cases (num - 1) 0) as [Hd|Hd].
  - unfold Pd.linspace_entry. destruct (Z.ltb_spec 0 (num - 1)); lia.
  - now rewrite linspace_entry_div by lia.
Qed.



Lemma linspace_range (stop num : Z) (i : nat) (v : Z) :
  0 ≤ stop → Pd.linspace stop num !! i = Some v → 0 ≤ v ≤ stop.
Proof.
  intros Hs [Hlt ->]%linspace_lookup.
  destruct (Z.le_gt_cases (num - 1) 0) as [Hd|Hd].
  - unfold Pd.linspace_entry. destruct (Z.ltb_spec 0 (num - 1)); [lia|].
    assert (Z.of_nat i = 0) as -> by lia. lia.
  - rewrite linspace_entry_div by lia. split.
    + apply Z.div_pos; nia.
    + apply Z.div_le_upper_bound; nia.
Qed.

(** When there are fewer steps than units in the range, the samples are
    strictly increasing. *)
Lemma linspace_increasing (stop num : Z) (i j : nat) (a b : Z) :
  num - 1 ≤ stop →
  Pd.linspace stop num !! i = Some a →
  Pd.linspace stop num !! j = Some b →
  (i < j)%nat → a < b.
Proof.
  intros Hfew [_ ->]%linspace_lookup [Hlt ->]%linspace_lookup Hij.
  rewrite !linspace_entry_div by lia.
  apply Z.lt_le_trans with ((Z.of_nat i * stop + (num - 1)) / (num - 1)).
  - rewrite <- (Z.mul_1_l (num - 1)) at 2. rewrite Z.div_add by lia. lia.
  - apply Z.div_le_mono; nia.
Qed.

(** The samples never decrease when the range is not inverted. *)
Lemma linspace_monotone (stop num : Z) (i j : nat) (a b : Z) :
  0 ≤ stop →
  Pd.linspace stop num !! i = Some a →
  Pd.linspace stop num !! j = Some b →
  (i ≤ j)%nat → a ≤ b.
Proof.
  intros Hs [Hi ->]%linspace_lookup [Hj ->]%linspace_lookup Hij.
  destruct (Z.le_gt_cases (num - 1) 0) as [Hd|Hd].
  - unfold Pd.linspace_entry. destruct (Z.ltb_spec 0 (num - 1)); nia.
  - rewrite !linspace_entry_div by lia. apply Z.div_le_mono; nia.
Qed.

End Linspace.

Section SeriesMinMax.

Lemma foldl_min_spec (l : list Z) (x : Z) :
  foldl Z.min x l ∈ x :: l ∧ ∀ y, y ∈ x :: l → foldl Z.min x l ≤ y.
Proof.
  revert x. induction l as [|z l IH]; intros x; simpl.
  - split; [left|]. intros y ->%list_elem_of_singleton. lia.
  - destruct (IH (Z.min x z)) as [Hin Hle]. split.
    + apply elem_of_cons in Hin as [->|Hin].
      * destruct (Z.min_spec x z) as [[_ ->]|[_ ->]]; [left|right; left].
      * do 2 right. exact Hin.
    + intros y Hy. pose proof (Hle (Z.min x z) ltac:(left)).
      apply elem_of_cons in Hy as [->|Hy]; [lia|].
      apply elem_of_cons in Hy as [->|Hy]; [lia|].
      apply Hle. right. exact Hy.
Qed.

Lemma foldl_max_spec (l : list Z) (x : Z) :
  foldl Z.max x l ∈ x :: l ∧ ∀ y, y ∈ x :: l → y ≤ foldl Z.max x l.
Proof.
  revert x. induction l as [|z l IH]; intros x; simpl.
  - split; [left|]. intros y ->%list_elem_of_singleton. lia.
  - destruct (IH (Z.max x z)) as [Hin Hle]. split.
    + apply elem_of_cons in Hin as [->|Hin].
      * destruct (Z.max_spec x z) as [[_ ->]|[_ ->]]; [right; left|left].
      * do 2 right. exact Hin.
    + intros y Hy. pose proof (Hle (Z.max x z) ltac:(left)).
      apply elem_of_cons in Hy as [->|Hy]; [lia|].
      apply elem_of_cons in Hy as [->|Hy]; [lia|].
      apply Hle. right. exact Hy.
Qed.

Lemma series_min_spec (col : list Z) :
  col ≠ [] →
  ∃ m, Pd.series_min col = Some m ∧ m ∈ col ∧ ∀ y, y ∈ col → m ≤ y.
Proof.
  destruct col as [|x rest]; [congruence|]. intros _.
  exists (foldl Z.min x rest). split; [reflexivity|]. apply foldl_min_spec.
Qed.

Lemma series_max_spec (col : list Z) :
  col ≠ [] →
  ∃ m, Pd.series_max col = Some m ∧ m ∈ col ∧ ∀ y, y ∈ col → y ≤ m.
Proof.
  destruct col as [|x rest]; [congruence|]. intros _.
  exists (foldl Z.max x rest). split; [reflexivity|]. apply foldl_max_spec.
Qed.

End SeriesMinMax.

(** ** Facts about the timeline *)

Section Timeline.

Lemma start_time_spec (df : list Flight) :
  df ≠ [] → ∃ s, start_time df = Some s ∧ is_min_departure df s.
Proof.
  intros Hne.
  destruct (series_min_spec (map departure_time df)) as (m & Hm & Hin & Hle).
  { destruct df; [congruence|discriminate]. }
  exists m. split; [exact Hm|]. split.
  - apply list_elem_of_fmap in Hin as (f & -> & Hf). eauto.
  - intros f Hf. apply Hle, list_elem_of_fmap. eauto.
Qed.

Lemma end_time_spec (df : list Flight) :
  df ≠ [] → ∃ e, end_time df = Some e ∧ is_max_arrival df e.
Proof.
  intros Hne.
  destruct (series_max_spec (map arrival_time df)) as (m & Hm & Hin & Hle).
  { destruct df; [congruence|discriminate]. }
  exists m. split; [exact Hm|]. split.
  - apply list_elem_of_fmap in Hin as (f & -> & Hf). eauto.
  - intros f Hf. apply Hle, list_elem_of_fmap. eauto.
Qed.

Lemma total_frames_eq (df : list Flight) (fph s e : Z) :
  start_time df = Some s → end_time df = Some e →
  total_frames df fph = Py.Ok (frame_count s e fph).
Proof.
  intros Hs He. unfold total_frames, total_hours. rewrite Hs, He.
  change (Py.Ok (Z.max (Z.quot (Qnum (window_hours s e * inject_Z fph))
                               (Z.pos (Qden (window_hours s e * inject_Z fph)))) 1)
          = Py.Ok (frame_count s e fph)).
  rewrite max_quot_floor, floor_window_hours. reflexivity.
Qed.

Lemma frame_count_pos (s e fph : Z) : 1 ≤ frame_count s e fph.
Proof. unfold frame_count. lia. Qed.

Lemma animation_timestamps_eq (df : list Flight) (fph s e : Z) :
  start_time df = Some s → end_time df = Some e →
  animation_timestamps df fph
  = Py.Ok (map (Z.add s) (Pd.linspace (e - s) (frame_count s e fph))).
Proof.
  intros Hs He. unfold animation_timestamps.
  rewrite (total_frames_eq df fph s e Hs He), Hs, He. reflexivity.
Qed.

(** On a table whose flights do not arrive before they depart the window
    is not inverted. *)
Lemma window_nonneg (df : list Flight) (s e : Z) :
  is_min_departure df s → is_max_arrival df e →
  (∀ f, f ∈ df → departure_time f ≤ arrival_time f) →
  s ≤ e.
Proof.
  intros [(f & Hf & <-) _] [_ Hmax] Hwf.
  pose proof (Hwf f Hf). pose proof (Hmax f Hf). lia.
Qed.

(** Fewer frames than nanoseconds, as long as the density is at most one
    frame per nanosecond. *)
Lemma frame_count_few (s e fph : Z) :
  0 ≤ fph ≤ 3600 * 1000000000 →
  2 ≤ frame_count s e fph → frame_count s e fph - 1 ≤ e - s.
Proof.
  unfold frame_count. intros Hf Hn.
  assert (2 ≤ (e - s) * fph / (3600 * 1000000000)) as H2 by lia.
  assert (0 < e - s).
  { destruct (Z.lt_ge_cases 0 (e - s)) as [|Hneg]; [assumption|].
    assert ((e - s) * fph / (3600 * 1000000000) ≤ 0); [|lia].
    apply Z.div_le_upper_bound; nia. }
  assert ((e - s) * fph / (3600 * 1000000000) ≤ e - s); [|lia].
  apply Z.div_le_upper_bound; nia.
Qed.

End Timeline.

Section TimelineClaims.

Lemma timeline_head (s w n : Z) :
  1 ≤ n → head (map (Z.add s) (Pd.linspace w n)) = Some s.
Proof.
  intros Hn. rewrite head_lookup, list_lookup_fmap, linspace_first by lia.
  simpl. f_equal. lia.
Qed.






End TimelineClaims.

(** ** Facts about the interpolation loops *)

Section Interpolation.

Lemma total_seconds_make (td : Z) : (Pd.total_seconds td == td # 1000000000)%Q.
Proof. unfold Pd.total_seconds. symmetry. apply Qmake_Qdiv. Qed.

Lemma total_seconds_pos (td : Z) : (0 < Pd.total_seconds td)%Q ↔ 0 < td.
Proof. rewrite total_seconds_make. unfold Qlt. simpl. lia. Qed.

Lemma total_seconds_ratio (a b : Z) :
  0 < b → (Pd.total_seconds a / Pd.total_seconds b == inject_Z a / inject_Z b)%Q.
Proof.
  intros Hb. unfold Pd.total_seconds. field. apply inject_Z_nonzero. lia.
Qed.

Lemma quotient_bounds (a b : Z) :
  0 ≤ a ≤ b → 0 < b → (0 <= inject_Z a / inject_Z b <= 1)%Q.
Proof.
  intros Ha Hb.
  assert (0 < inject_Z b)%Q as Hb' by (unfold Qlt; simpl; lia).
  split.
  - apply Qle_shift_div_l; [exact Hb'|]. rewrite Qmult_0_l. unfold Qle; simpl; lia.
  - apply Qle_shift_div_r; [exact Hb'|]. rewrite Qmult_1_l, <- Zle_Qle. lia.
Qed.

Lemma flight_duration_pos (f : Flight) :
  (0 < flight_duration f)%Q ↔ departure_time f < arrival_time f.
Proof. unfold flight_duration. rewrite total_seconds_pos. lia. Qed.

(** The guard keeps the division away from a zero duration: the ratio is
    always computed, never raised. *)
Lemma progress_ratio_ok (f : Flight) (t : Z) :
  progress_ratio f t = Py.Ok (ratio_value f t).
Proof.
  unfold progress_ratio, ratio_value.
  destruct (Qlt_le_dec 0 (flight_duration f)) as [Hpos|Hle]; [|reflexivity].
  unfold Py.truediv.
  destruct (Qeq_bool (flight_duration f) 0) eqn:E; [|reflexivity].
  apply Qeq_bool_eq in E. rewrite E in Hpos. discriminate Hpos.
Qed.

Lemma ratio_value_zero (f : Flight) (t : Z) :
  arrival_time f ≤ departure_time f → ratio_value f t = 0%Q.
Proof.
  intros Hle. unfold ratio_value.
  destruct (Qlt_le_dec 0 (flight_duration f)) as [Hpos|_]; [|reflexivity].
  apply flight_duration_pos in Hpos. lia.
Qed.

Lemma ratio_value_pos (f : Flight) (t : Z) :
  departure_time f < arrival_time f →
  (ratio_value f t ==
   inject_Z (t - departure_time f) / inject_Z (arrival_time f - departure_time f))%Q.
Proof.
  intros Hlt. unfold ratio_value.
  destruct (Qlt_le_dec 0 (flight_duration f)) as [_|Hle].
  - apply total_seconds_ratio. lia.
  - apply flight_duration_pos in Hlt. apply Qle_not_lt in Hle. contradiction.
Qed.

Lemma active_spec (f : Flight) (t : Z) : active f t = true ↔ in_interval f t.
Proof.
  unfold active, in_interval. rewrite andb_true_iff, !Z.leb_le. reflexivity.
Qed.

Lemma densified_item_ok (t : Z) (f : Flight) :
  densified_item t f = Py.Ok (item_value t f).
Proof. unfold densified_item. rewrite progress_ratio_ok. reflexivity. Qed.

Lemma rows_at_cons (f : Flight) (df : list Flight) (t : Z) :
  rows_at (f :: df) t
  = (if active f t then [item_value t f] else []) ++ rows_at df t.
Proof. reflexivity. Qed.

(** The inner loop appends the items of the active flights, in row order. *)
Lemma densify_flights_ok (t : Z) (rows : list Flight) (acc : list DensifiedRow) :
  densify_flights t rows acc = Py.Ok (acc ++ rows_at rows t).
Proof.
  revert acc. induction rows as [|f rows IH]; intros acc.
  - simpl. now rewrite app_nil_r.
  - rewrite rows_at_cons. simpl. destruct (active f t).
    + rewrite densified_item_ok. cbn. rewrite IH, <- app_assoc. reflexivity.
    + apply IH.
Qed.

Lemma densify_from_ok (ts : list Z) (df : list Flight) (acc : list DensifiedRow) :
  densify_from ts df acc = Py.Ok (acc ++ densified_rows ts df).
Proof.
  revert acc. induction ts as [|t ts IH]; intros acc.
  - simpl. now rewrite app_nil_r.
  - simpl. rewrite densify_flights_ok. cbn. rewrite IH, <- app_assoc. reflexivity.
Qed.

(** The two loops never raise, and return the items of every
    (timestamp, active flight) pair, timestamp by timestamp. *)
Lemma densify_ok (ts : list Z) (df : list Flight) :
  densify ts df = Py.Ok (densified_rows ts df).
Proof. apply densify_from_ok. Qed.

Lemma item_value_in_rows_at (df : list Flight) (f : Flight) (t : Z) :
  f ∈ df → in_interval f t → item_value t f ∈ rows_at df t.
Proof.
  intros Hf Hact. apply list_elem_of_In, in_flat_map. exists f. split.
  - now apply list_elem_of_In.
  - apply active_spec in Hact. rewrite Hact. now left.
Qed.

Lemma item_value_in_densified (ts : list Z) (df : list Flight) (f : Flight) (t : Z) :
  t ∈ ts → f ∈ df → in_interval f t → item_value t f ∈ densified_rows ts df.
Proof.
  intros Ht Hf Hact. apply list_elem_of_In, in_flat_map. exists t. split.
  - now apply list_elem_of_In.
  - apply list_elem_of_In. now apply item_value_in_rows_at.
Qed.

Lemma points_of_rows_at_other (f : Flight) (df : list Flight) (t : Z) :
  flight_id f ∉ map flight_id df → points_of f (rows_at df t) = [].
Proof.
  unfold points_of. induction df as [|g df IH]; intros Hnot; [reflexivity|].
  rewrite rows_at_cons, filter_app, IH.
  - rewrite app_nil_r. destruct (active g t); [|reflexivity].
    rewrite filter_cons_False; [reflexivity|].
    simpl. intros Heq. apply Hnot. rewrite <- Heq. left.
  - intros Hin. apply Hnot. right. exact Hin.
Qed.

(** With unique flight ids, a flight has one item at a timestamp of its
    interval and none at any other. *)
Lemma points_of_rows_at (f : Flight) (df : list Flight) (t : Z) :
  NoDup (map flight_id df) → f ∈ df →
  points_of f (rows_at df t) = if active f t then [item_value t f] else [].
Proof.
  induction df as [|g df IH]; intros Hnd Hf; [inversion Hf|].
  simpl in Hnd. apply NoDup_cons in Hnd as [Hg Hnd].
  rewrite rows_at_cons. unfold points_of. rewrite filter_app.
  apply elem_of_cons in Hf as [->|Hf].
  - fold (points_of g (rows_at df t)). rewrite points_of_rows_at_other by exact Hg.
    rewrite app_nil_r. destruct (active g t); [|reflexivity].
    now rewrite filter_cons_True.
  - fold (points_of f (rows_at df t)). rewrite IH by assumption.
    assert (flight_id g ≠ flight_id f) as Hne.
    { intros Heq. apply Hg. rewrite Heq. now apply list_elem_of_fmap_2. }
    destruct (active g t); [|reflexivity].
    rewrite filter_cons_False; [reflexivity|]. simpl. congruence.
Qed.

(** The items of a flight are its items at the timestamps of its closed
    interval, in timeline order. *)
Lemma points_of_densified (f : Flight) (df : list Flight) (ts : list Z) :
  NoDup (map flight_id df) → f ∈ df →
  points_of f (densified_rows ts df)
  = map (fun t => item_value t f) (filter (in_interval f) ts).
Proof.
  intros Hnd Hf. induction ts as [|t ts IH]; [reflexivity|].
  change (densified_rows (t :: ts) df) with (rows_at df t ++ densified_rows ts df).
  unfold points_of in *. rewrite filter_app, IH.
  fold (points_of f (rows_at df t)). rewrite points_of_rows_at by assumption.
  destruct (active f t) eqn:Hact.
  - apply active_spec in Hact. now rewrite filter_cons_True.
  - rewrite filter_cons_False; [reflexivity|].
    rewrite <- active_spec, Hact. discriminate.
Qed.

Lemma filter_frame_items (f : Flight) (t : Z) (l : list Z) :
  filter (fun r => Frame r = t) (map (fun t' => item_value t' f) l)
  = map (fun t' => item_value t' f) (filter (fun t' => t' = t) l).
Proof.
  induction l as [|x l IH]; [reflexivity|]. simpl.
  rewrite !filter_cons. simpl. destruct (decide (x = t)); simpl; now rewrite IH.
Qed.

Lemma length_filter_eq_NoDup (t : Z) (l : list Z) :
  NoDup l → length (filter (fun x => x = t) l) = if decide (t ∈ l) then 1%nat else 0%nat.
Proof.
  induction 1 as [|x l Hx Hnd IH]; [reflexivity|].
  rewrite filter_cons. destruct (decide (x = t)) as [->|Hne].
  - simpl. rewrite IH, (decide_False (P := t ∈ l)) by exact Hx.
    now rewrite decide_True by left.
  - rewrite IH. destruct (decide (t ∈ l)) as [Hin|Hnin].
    + rewrite decide_True; [reflexivity|now right].
    + rewrite decide_False; [reflexivity|].
      intros [->|Hin]%elem_of_cons; contradiction.
Qed.

(** With unique flight ids and a timeline without repetition, the number
    of items of a flight at a timeline timestamp is one inside its
    interval and zero outside. *)
Lemma length_points_at (f : Flight) (df : list Flight) (ts : list Z) (t : Z) :
  NoDup (map flight_id df) → NoDup ts → f ∈ df → t ∈ ts →
  length (points_at f t (densified_rows ts df))
  = if decide (in_interval f t) then 1%nat else 0%nat.
Proof.
  intros Hnd Hts Hf Ht. unfold points_at.
  rewrite points_of_densified, filter_frame_items, length_map by assumption.
  rewrite length_filter_eq_NoDup by now apply NoDup_filter.
  destruct (decide (in_interval f t)) as [Hin|Hout].
  - rewrite decide_True; [reflexivity|]. now apply list_elem_of_filter.
  - rewrite decide_False; [reflexivity|].
    intros [? _]%list_elem_of_filter. contradiction.
Qed.

End Interpolation.

(** ** Facts about [pd.unique] and the frame timestamps *)

Section Unique.

Context {A : Type} `{EqDecision A}.

Lemma unique_from_skip (seen l rest : list A) :
  (∀ x, x ∈ l → x ∈ seen) →
  Pd.unique_from seen (l ++ rest) = Pd.unique_from seen rest.
Proof.
  induction l as [|x l IH]; intros Hseen; [reflexivity|]. simpl.
  rewrite bool_decide_eq_true_2 by (apply Hseen; left).
  apply IH. intros y Hy. apply Hseen. now right.
Qed.

Lemma unique_from_block (seen l rest : list A) (t : A) :
  t ∉ seen → l ≠ [] → (∀ x, x ∈ l → x = t) →
  Pd.unique_from seen (l ++ rest) = t :: Pd.unique_from (t :: seen) rest.
Proof.
  intros Hnew Hne Hall. destruct l as [|x l]; [congruence|].
  assert (x = t) as -> by (apply Hall; left). simpl.
  rewrite bool_decide_eq_false_2 by exact Hnew. f_equal.
  apply unique_from_skip. intros y Hy.
  rewrite (Hall y) by now right. left.
Qed.

(** On a sequence of blocks, each repeating one value of a list without
    repetition, [unique] keeps the values whose block is not empty. *)
Lemma unique_from_blocks (blk : A → list A) (seen ts : list A) :
  (∀ t x, x ∈ blk t → x = t) →
  NoDup ts → (∀ t, t ∈ ts → t ∉ seen) →
  Pd.unique_from seen (flat_map blk ts) = filter (fun t => blk t ≠ []) ts.
Proof.
  intros Hblk Hnd. revert seen.
  induction Hnd as [|t ts Ht Hnd IH]; intros seen Hseen; [reflexivity|].
  simpl. destruct (decide (blk t = [])) as [Hnil|Hne].
  - rewrite Hnil. simpl. rewrite filter_cons_False by tauto.
    apply IH. intros y Hy. apply Hseen. now right.
  - rewrite (unique_from_block seen (blk t) _ t); [| |assumption|].
    + rewrite filter_cons_True by assumption. f_equal.
      apply IH. intros y Hy [->|Hin]%elem_of_cons; [contradiction|].
      apply (Hseen y); [now right|assumption].
    + apply Hseen. left.
    + apply Hblk.
Qed.

End Unique.

Section FrameTimestamps.

Lemma frame_block_same (df : list Flight) (t x : Z) : x ∈ frame_block df t → x = t.
Proof.
  unfold frame_block. intros (r & -> & Hr)%list_elem_of_fmap.
  apply list_elem_of_In, in_flat_map in Hr as (f & _ & Hr).
  destruct (active f t); [|destruct Hr].
  destruct Hr as [<-|[]]. reflexivity.
Qed.

Lemma frame_block_nonempty (df : list Flight) (t : Z) :
  frame_block df t ≠ [] ↔ has_active df t.
Proof.
  unfold frame_block, has_active. rewrite Exists_exists. split.
  - intros Hne. destruct (rows_at df t) as [|r rows] eqn:E; [contradiction|].
    assert (r ∈ rows_at df t) as Hr by (rewrite E; left).
    apply list_elem_of_In, in_flat_map in Hr as (f & Hf & Hr).
    exists f. split; [now apply list_elem_of_In|].
    apply active_spec. destruct (active f t); [reflexivity|destruct Hr].
  - intros (f & Hf & Hact) Hnil. apply map_eq_nil in Hnil.
    pose proof (item_value_in_rows_at df f t Hf Hact) as Hin.
    rewrite Hnil in Hin. inversion Hin.
Qed.

Lemma frame_column (df : list Flight) (ts : list Z) :
  map Frame (densified_rows ts df) = flat_map (frame_block df) ts.
Proof.
  induction ts as [|t ts IH]; [reflexivity|].
  change (densified_rows (t :: ts) df) with (rows_at df t ++ densified_rows ts df).
  rewrite map_app, IH. reflexivity.
Qed.

Lemma densified_df_frames (df : list Flight) (rows : list DensifiedRow) :
  map (fun r => Frame (base r)) (densified_df df rows) = map Frame rows.
Proof. unfold densified_df. rewrite map_map. reflexivity. Qed.

(** On a timeline without repetition the frames are those of the
    timestamps at which some flight is active, in timeline order. *)
Lemma frame_timestamps_eq (df : list Flight) (ts : list Z) :
  NoDup ts →
  frame_timestamps (densified_df df (densified_rows ts df))
  = filter (has_active df) ts.
Proof.
  intros Hnd. unfold frame_timestamps, Pd.unique.
  rewrite densified_df_frames, frame_column.
  rewrite (unique_from_blocks (frame_block df)).
  - apply list_filter_iff. intros t. apply frame_block_nonempty.
  - apply frame_block_same.
  - exact Hnd.
  - intros t _ Hin. inversion Hin.
Qed.

End FrameTimestamps.

Section UniqueSpec.

Context {A : Type} `{EqDecision A}.

Lemma unique_from_elem (seen l : list A) (x : A) :
  x ∈ Pd.unique_from seen l → x ∈ l ∧ x ∉ seen.
Proof.
  revert seen. induction l as [|y l IH]; intros seen Hx; [inversion Hx|].
  simpl in Hx. destruct (bool_decide_reflect (y ∈ seen)) as [Hy|Hy].
  - destruct (IH seen Hx). split; [now right|assumption].
  - apply elem_of_cons in Hx as [->|Hx]; [split; [left|assumption]|].
    destruct (IH _ Hx) as [Hin Hnot]. split; [now right|].
    intros Hs. apply Hnot. now right.
Qed.

Lemma unique_from_NoDup (seen l : list A) : NoDup (Pd.unique_from seen l).
Proof.
  revert seen. induction l as [|y l IH]; intros seen; [constructor|].
  simpl. destruct (bool_decide (y ∈ seen)); [apply IH|].
  constructor; [|apply IH].
  intros [_ Hnot]%unique_from_elem. apply Hnot. left.
Qed.

End UniqueSpec.

(** ** Facts about the figure *)

Section Figure.

Lemma animation_timestamps_inv (df : list Flight) (fph : Z) (ts : list Z) :
  animation_timestamps df fph = Py.Ok ts →
  ∃ s e, start_time df = Some s ∧ end_time df = Some e ∧
         is_min_departure df s ∧ is_max_arrival df e ∧
         ts = map (Z.add s) (Pd.linspace (e - s) (frame_count s e fph)).
Proof.
  intros Hts. destruct df as [|f df]; [discriminate|].
  destruct (start_time_spec (f :: df)) as (s & Hs & Hmin); [discriminate|].
  destruct (end_time_spec (f :: df)) as (e & He & Hmax); [discriminate|].
  rewrite (animation_timestamps_eq _ fph s e Hs He) in Hts.
  injection Hts as <-. eauto 10.
Qed.

(** With a density of at most one frame per nanosecond the timeline is
    strictly increasing. *)
Lemma timeline_increasing (df : list Flight) (fph : Z) (ts : list Z) :
  0 ≤ fph ≤ 3600 * 1000000000 →
  animation_timestamps df fph = Py.Ok ts →
  ∀ i j a b, ts !! i = Some a → ts !! j = Some b → (i < j)%nat → a < b.
Proof.
  intros Hfph (s & e & _ & _ & _ & _ & ->)%animation_timestamps_inv i j a b Ha Hb Hij.
  rewrite list_lookup_fmap, fmap_Some in Ha, Hb.
  destruct Ha as (x & Hx & ->), Hb as (y & Hy & ->).
  assert (2 ≤ frame_count s e fph).
  { apply linspace_lookup in Hy as [Hlt _]. lia. }
  pose proof (frame_count_few s e fph Hfph ltac:(assumption)).
  pose proof (linspace_increasing _ _ _ _ _ _ ltac:(eassumption) Hx Hy Hij). lia.
Qed.

Lemma increasing_StronglySorted (l : list Z) :
  (∀ i j a b, l !! i = Some a → l !! j = Some b → (i < j)%nat → a < b) →
  StronglySorted Z.lt l.
Proof.
  induction l as [|x l IH]; intros Hinc; constructor.
  - apply IH. intros i j a b Ha Hb Hij.
    apply (Hinc (S i) (S j)); [assumption|assumption|lia].
  - apply Forall_lookup. intros i y Hy.
    apply (Hinc 0%nat (S i)); [reflexivity|assumption|lia].
Qed.

Lemma timeline_sorted (df : list Flight) (fph : Z) (ts : list Z) :
  0 ≤ fph ≤ 3600 * 1000000000 →
  animation_timestamps df fph = Py.Ok ts → StronglySorted Z.lt ts.
Proof.
  intros Hfph Hts. apply increasing_StronglySorted.
  apply (timeline_increasing df fph ts Hfph Hts).
Qed.

Lemma timeline_NoDup (df : list Flight) (fph : Z) (ts : list Z) :
  0 ≤ fph ≤ 3600 * 1000000000 →
  animation_timestamps df fph = Py.Ok ts → NoDup ts.
Proof.
  intros Hfph Hts. apply NoDup_alt. intros i j x Hi Hj.
  pose proof (timeline_increasing df fph ts Hfph Hts) as Hinc.
  destruct (Nat.lt_trichotomy i j) as [Hlt|[Heq|Hgt]]; [|assumption|].
  - pose proof (Hinc _ _ _ _ Hi Hj Hlt). lia.
  - pose proof (Hinc _ _ _ _ Hj Hi Hgt). lia.
Qed.

Lemma StronglySorted_filter (P : Z → Prop) `{∀ x, Decision (P x)} (l : list Z) :
  StronglySorted Z.lt l → StronglySorted Z.lt (filter P l).
Proof.
  induction 1 as [|x l Hs IH Hall]; [constructor|].
  rewrite filter_cons. destruct (decide (P x)); [|assumption].
  constructor; [assumption|].
  apply Forall_forall. intros y [_ Hy]%list_elem_of_filter.
  rewrite Forall_forall in Hall. now apply Hall.
Qed.

(** Every frame timestamp is a timeline timestamp, so there are at most
    as many frames as timeline entries. *)
Lemma frame_timestamps_in_timeline (df : list Flight) (ts : list Z) (t : Z) :
  t ∈ frame_timestamps (densified_df df (densified_rows ts df)) → t ∈ ts.
Proof.
  unfold frame_timestamps, Pd.unique.
  rewrite densified_df_frames, frame_column.
  intros [Hin _]%unique_from_elem.
  apply list_elem_of_In, in_flat_map in Hin as (t' & Ht' & Hin).
  apply list_elem_of_In in Ht', Hin.
  now rewrite (frame_block_same df t' t Hin).
Qed.

Lemma length_frames (df : list Flight) (ddf : list PlaneRow) :
  length (frames df ddf) = length (frame_timestamps ddf).
Proof. apply length_imap. Qed.

Lemma frames_le_timeline (df : list Flight) (ts : list Z) :
  (length (frames df (densified_df df (densified_rows ts df))) ≤ length ts)%nat.
Proof.
  rewrite length_frames. apply submseteq_length, NoDup_submseteq.
  - apply unique_from_NoDup.
  - apply frame_timestamps_in_timeline.
Qed.

Lemma mapM_ok {X Y : Type} (f : X → Py.result Y) (g : X → Y) (l : list X) :
  (∀ x, x ∈ l → f x = Py.Ok (g x)) → mapM f l = Py.Ok (map g l).
Proof.
  induction l as [|x l IH]; intros Hok; [reflexivity|].
  simpl. rewrite (Hok x) by left. cbn.
  rewrite IH by (intros y Hy; apply Hok; now right). reflexivity.
Qed.

(** The slider steps are built without an index error as long as there
    are no more frames than timeline entries. *)
Lemma slider_steps_ok (ts : list Z) (fs : list GoFrame) :
  (length fs ≤ length ts)%nat →
  slider_steps ts fs = Py.Ok (map (step_value ts) (imap pair fs)).
Proof.
  intros Hlen. unfold slider_steps. apply mapM_ok.
  intros [i fr] (k & Hk)%list_elem_of_lookup_1.
  rewrite list_lookup_imap, fmap_Some in Hk. destruct Hk as (x & Hx & [= -> ->]).
  apply lookup_lt_Some in Hx.
  destruct (lookup_lt_is_Some_2 ts k ltac:(lia)) as [t Ht].
  unfold timestamp_at, step_value. simpl. rewrite Ht. reflexivity.
Qed.

Lemma build_figure_ok (df : list Flight) (ts : list Z) :
  build_figure df ts (densified_rows ts df)
  = Py.Ok (figure_of df ts (densified_rows ts df)
             (map (step_value ts)
                  (imap pair (frames df (densified_df df (densified_rows ts df)))))).
Proof.
  unfold build_figure. rewrite slider_steps_ok by apply frames_le_timeline.
  reflexivity.
Qed.

(** What [update_graph] returns once the timeline is known: the empty
    message when no item was produced, the figure otherwise. *)
Lemma update_graph_eq (df : list Flight) (fph : Z) (ts : list Z) :
  animation_timestamps df fph = Py.Ok ts →
  update_graph df fph
  = match densified_rows ts df with
    | [] => NoFlightsDiv
    | _ :: _ =>
        Graph (figure_of df ts (densified_rows ts df)
                 (map (step_value ts)
                      (imap pair (frames df (densified_df df (densified_rows ts df))))))
    end.
Proof.
  intros Hts. unfold update_graph, update_graph_try.
  rewrite Hts. cbn. rewrite densify_ok. cbn.
  pose proof (build_figure_ok df ts) as Hfig.
  destruct (densified_rows ts df) as [|r rows]; [reflexivity|].
  rewrite Hfig. reflexivity.
Qed.

End Figure.

(** ** Active intervals, interpolation and zero-length flights *)

Section InterpolationClaims.

(** C2: with unique flight ids and the timeline of the table (at a density
    of at most one frame per nanosecond, so that no timestamp repeats),
    a flight [f] of the table has exactly one item at a timeline
    timestamp [t] iff [departure_time f <= t <= arrival_time f], and none
    otherwise; the number of items of [f] is the number of timeline
    timestamps in that closed interval. *)
Theorem active_interval_membership
    (df : list Flight) (fph : Z) (timeline : list Z) (f : Flight) (t : Z) :
  NoDup (map flight_id df) →
  0 ≤ fph ≤ 3600 * 1000000000 →
  animation_timestamps df fph = Py.Ok timeline →
  f ∈ df → t ∈ timeline →
  ∃ rows, densify timeline df = Py.Ok rows ∧
    (length (points_at f t rows) = 1%nat
     ↔ departure_time f ≤ t ≤ arrival_time f) ∧
    (length (points_at f t rows) ≤ 1)%nat ∧
    length (points_of f rows)
    = length (filter (fun t' => departure_time f ≤ t' ≤ arrival_time f) timeline).
Proof.
  intros Hids Hfph Hts Hf Ht.
  exists (densified_rows timeline df). split; [apply densify_ok|].
  pose proof (timeline_NoDup df fph timeline Hfph Hts) as Hnd.
  rewrite (length_points_at f df timeline t Hids Hnd Hf Ht).
  split_and!.
  - unfold in_interval. destruct (decide _); [tauto|]. split; [discriminate|tauto].
  - destruct (decide _); lia.
  - rewrite points_of_densified, length_map by assumption. reflexivity.
Qed.

Lemma active_interval_membership_witness :
  ∃ rows, densify [t0700] [short_hop] = Py.Ok rows ∧
          length (points_of short_hop rows) = 1%nat.
Proof.
  destruct (active_interval_membership [short_hop] 30 [t0700] short_hop t0700)
    as (rows & Hrows & _ & _ & Hlen).
  - apply NoDup_singleton.
  - lia.
  - reflexivity.
  - left.
  - left.
  - exists rows. split; [exact Hrows|]. rewrite Hlen. reflexivity.
Defined.



(** C8, as the code has it: for a flight whose departure and arrival
    coincide, the guard gives the ratio 0 without dividing, the item of
    the flight at any timestamp is at the origin, and the loops return
    without raising.  With unique flight ids and the timeline of the table
    (at most one frame per nanosecond) every item of the flight is at its
    departure instant and there is at most one; there is exactly one iff
    that instant is a timeline timestamp, which is the case when it is the
    earliest departure of the table. *)
Theorem zero_duration_safety
    (df : list Flight) (fph : Z) (timeline : list Z) (f : Flight) :
  NoDup (map flight_id df) →
  0 ≤ fph ≤ 3600 * 1000000000 →
  animation_timestamps df fph = Py.Ok timeline →
  f ∈ df →
  departure_time f = arrival_time f →
  (flight_duration f == 0)%Q ∧
  (∀ t, progress_ratio f t = Py.Ok 0%Q) ∧
  (∀ t, ∃ item, densified_item t f = Py.Ok item ∧
          (Current_Lat item == origin_lat f)%Q ∧
          (Current_Lon item == origin_lon f)%Q) ∧
  ∃ rows, densify timeline df = Py.Ok rows ∧
    (∀ r, r ∈ points_of f rows → Frame r = departure_time f) ∧
    (length (points_of f rows) ≤ 1)%nat ∧
    (length (points_of f rows) = 1%nat ↔ departure_time f ∈ timeline) ∧
    (is_min_departure df (departure_time f) → length (points_of f rows) = 1%nat).
Proof.
  intros Hids Hfph Hts Hf Hzero.
  pose proof (timeline_NoDup df fph timeline Hfph Hts) as Hnd.
  assert (∀ t, ratio_value f t = 0%Q) as Hratio
    by (intros t; apply ratio_value_zero; lia).
  assert (length (points_of f (densified_rows timeline df))
          = if decide (departure_time f ∈ timeline) then 1%nat else 0%nat) as Hlen.
  { rewrite points_of_densified, length_map by assumption.
    rewrite <- (length_filter_eq_NoDup (departure_time f) timeline Hnd).
    f_equal. apply list_filter_iff. intros t. unfold in_interval. lia. }
  split_and!.
  - unfold flight_duration. rewrite <- Hzero, Z.sub_diag. reflexivity.
  - intros t. rewrite progress_ratio_ok, Hratio. reflexivity.
  - intros t. exists (item_value t f). split; [apply densified_item_ok|].
    simpl. rewrite Hratio. split; ring.
  - exists (densified_rows timeline df). split; [apply densify_ok|].
    split_and!.
    + intros r. rewrite points_of_densified by assumption.
      intros (t & -> & Hin)%list_elem_of_fmap.
      apply list_elem_of_filter in Hin as [Hin _]. unfold in_interval in Hin.
      simpl. lia.
    + rewrite Hlen. destruct (decide _); lia.
    + rewrite Hlen. destruct (decide _); [tauto|]. split; [discriminate|tauto].
    + intros Hmin. rewrite Hlen, decide_True; [reflexivity|].
      destruct (animation_timestamps_inv df fph timeline Hts)
        as (s & e & _ & _ & [(g & Hg & <-) Hle] & _ & ->).
      assert (departure_time g = departure_time f) as <-.
      { destruct Hmin as [(g' & Hg' & Hg'eq) Hle'].
        pose proof (Hle f Hf). pose proof (Hle' g Hg). lia. }
      apply (list_elem_of_lookup_2 _ 0%nat).
      rewrite <- head_lookup. apply timeline_head, frame_count_pos.
Qed.

Lemma zero_duration_safety_witness :
  ∃ rows, densify [t0700 + hour_ns] [instant] = Py.Ok rows ∧
          length (points_of instant rows) = 1%nat.
Proof.
  destruct (zero_duration_safety [instant] 30 [t0700 + hour_ns] instant)
    as (_ & _ & _ & rows & Hrows & _ & _ & _ & Hone).
  - apply NoDup_singleton.
  - lia.
  - reflexivity.
  - left.
  - reflexivity.
  - exists rows. split; [exact Hrows|]. apply Hone. split.
    + exists instant. split; [left|reflexivity].
    + intros g ->%list_elem_of_singleton. reflexivity.
Defined.

(** C8 as stated fails when the instant of a zero-length flight is not a
    sample of the timeline: with a two-hour flight from 07:00 and a
    zero-length flight at 08:00, the 60 samples skip 08:00:00 and the
    zero-length flight gets no item. *)
Lemma zero_duration_off_grid :
  departure_time instant = arrival_time instant ∧
  ∃ ts rows,
    animation_timestamps [morning; instant] 30 = Py.Ok ts ∧
    densify ts [morning; instant] = Py.Ok rows ∧
    length ts = 60%nat ∧
    (departure_time instant ∉ ts) ∧
    points_of instant rows = [].
Proof.
  split; [reflexivity|].
  eexists. eexists. split; [vm_compute; reflexivity|].
  split; [apply densify_ok|].
  split; [reflexivity|]. split.
  - apply (bool_decide_unpack _). vm_compute. exact I.
  - vm_compute. reflexivity.
Qed.

(** C10: on a non-empty table whose flights do not arrive before they
    depart, the first timeline timestamp is the earliest departure, the
    flight that departs then is active at it, so the loops produce an item
    and [update_graph] returns a figure, not the "No flights found"
    message. *)
Theorem densified_nonempty (df : list Flight) (fph : Z) :
  df ≠ [] →
  (∀ f, f ∈ df → departure_time f ≤ arrival_time f) →
  ∃ timeline start f0 rows fig,
    animation_timestamps df fph = Py.Ok timeline ∧
    head timeline = Some start ∧
    is_min_departure df start ∧
    f0 ∈ df ∧ departure_time f0 = start ∧ active f0 start = true ∧
    densify timeline df = Py.Ok rows ∧
    (∃ item, densified_item start f0 = Py.Ok item ∧ item ∈ rows) ∧
    rows ≠ [] ∧
    update_graph df fph = Graph fig ∧
    update_graph df fph ≠ NoFlightsDiv.
Proof.
  intros Hne Hwf.
  destruct (start_time_spec df Hne) as (s & Hs & Hmin).
  destruct (end_time_spec df Hne) as (e & He & Hmax).
  pose proof (animation_timestamps_eq df fph s e Hs He) as Hts.
  set (ts := map (Z.add s) (Pd.linspace (e - s) (frame_count s e fph))) in *.
  assert (head ts = Some s) as Hhead by apply timeline_head, frame_count_pos.
  destruct Hmin as [(f0 & Hf0 & Hdep) Hle].
  assert (in_interval f0 s) as Hact.
  { unfold in_interval. pose proof (Hwf f0 Hf0). lia. }
  assert (item_value s f0 ∈ densified_rows ts df) as Hitem.
  { apply item_value_in_densified; [|assumption|assumption].
    apply (list_elem_of_lookup_2 _ 0%nat). now rewrite <- head_lookup. }
  pose proof (update_graph_eq df fph ts Hts) as Hout.
  destruct (densified_rows ts df) as [|r rows] eqn:Hrows; [inversion Hitem|].
  eexists ts, s, f0, (r :: rows), _.
  split_and!; try eassumption.
  - split; [eauto|assumption].
  - now apply active_spec.
  - rewrite densify_ok. now rewrite Hrows.
  - exists (item_value s f0). split; [apply densified_item_ok|assumption].
  - discriminate.
  - rewrite Hout. discriminate.
Qed.

Lemma densified_nonempty_witness :
  ∃ fig, update_graph [EX101] 30 = Graph fig.
Proof.
  destruct (densified_nonempty [EX101] 30)
    as (ts & s & f0 & rows & fig & _ & _ & _ & _ & _ & _ & _ & _ & _ & Hfig & _).
  - discriminate.
  - intros f ->%list_elem_of_singleton. simpl. unfold minute_ns. lia.
  - exists fig. exact Hfig.
Defined.

End InterpolationClaims.

(** ** Frame assembly, the empty table and the size of the output *)

Section AssemblyClaims.

Lemma update_graph_inv (df : list Flight) (fph : Z) (fig : Figure) :
  update_graph df fph = Graph fig →
  ∃ ts, animation_timestamps df fph = Py.Ok ts ∧
        densified_rows ts df ≠ [] ∧
        fig = figure_of df ts (densified_rows ts df)
                (map (step_value ts)
                     (imap pair (frames df (densified_df df (densified_rows ts df))))).
Proof.
  intros Hout. destruct (animation_timestamps df fph) as [ts|e] eqn:Hts.
  - exists ts. split; [reflexivity|].
    rewrite (update_graph_eq df fph ts Hts) in Hout.
    destruct (densified_rows ts df); [discriminate|].
    injection Hout as <-. split; [discriminate|reflexivity].
  - unfold update_graph, update_graph_try in Hout. rewrite Hts in Hout.
    discriminate Hout.
Qed.

Lemma filter_all {X : Type} (P : X → Prop) `{∀ x, Decision (P x)} (l : list X) :
  Forall P l → filter P l = l.
Proof.
  induction 1 as [|x l Hx _ IH]; [reflexivity|].
  now rewrite filter_cons_True, IH.
Qed.

Lemma update_graph_graph (df : list Flight) (fph : Z) (ts : list Z) :
  animation_timestamps df fph = Py.Ok ts →
  densified_rows ts df ≠ [] →
  update_graph df fph
  = Graph (figure_of df ts (densified_rows ts df)
             (map (step_value ts)
                  (imap pair (frames df (densified_df df (densified_rows ts df)))))).
Proof.
  intros Hts Hne. rewrite (update_graph_eq df fph ts Hts).
  destruct (densified_rows ts df); [congruence|reflexivity].
Qed.

Lemma frame_timestamps_rows (df : list Flight) (rows : list DensifiedRow) :
  frame_timestamps (densified_df df rows) = Pd.unique (map Frame rows).
Proof. unfold frame_timestamps. now rewrite densified_df_frames. Qed.

(** The label of the slider step at position [i] is taken from the
    timeline at position [i]. *)
Lemma slider_label_lookup (df : list Flight) (ts : list Z)
    (rows : list DensifiedRow) (i : nat) (t : Z) :
  Pd.unique (map Frame rows) !! i = Some t →
  label <$> map (step_value ts)
                (imap pair (frames df (densified_df df rows))) !! i
  = Some (Pd.strftime_HM (default 0 (ts !! i))).
Proof.
  intros Hi. rewrite list_lookup_fmap, list_lookup_imap.
  unfold frames. rewrite list_lookup_imap, frame_timestamps_rows, Hi. reflexivity.
Qed.

(** C4, as the code has it: a figure has one frame per timeline timestamp
    at which some flight is active, in ascending order of timestamp and
    named by its position 0, 1, ...; the frame at position [i] holds the
    markers of the items of its timestamp; there is one slider step per
    frame, pointing at it.  When every timeline timestamp has an active
    flight there are as many frames as timeline entries and the label of
    step [i] is the formatted time of the timestamp of frame [i]. *)
Theorem frame_assembly (df : list Flight) (fph : Z) (fig : Figure) :
  0 ≤ fph ≤ 3600 * 1000000000 →
  update_graph df fph = Graph fig →
  ∃ timeline rows,
    animation_timestamps df fph = Py.Ok timeline ∧
    densify timeline df = Py.Ok rows ∧
    let fts := frame_timestamps (densified_df df rows) in
    fts = filter (has_active df) timeline ∧
    StronglySorted Z.lt fts ∧
    length (fig_frames fig) = length fts ∧
    (length (fig_frames fig) ≤ length timeline)%nat ∧
    (∀ i fr, fig_frames fig !! i = Some fr →
       name fr = i ∧
       ∃ t, fts !! i = Some t ∧
            data fr = map (plane_marker df) (frame_df (densified_df df rows) t)) ∧
    length (sliders fig) = length (fig_frames fig) ∧
    (∀ i st, sliders fig !! i = Some st → step_frame st = i) ∧
    (Forall (has_active df) timeline →
       fts = timeline ∧
       length (fig_frames fig) = length timeline ∧
       ∀ i st t, sliders fig !! i = Some st → fts !! i = Some t →
                 label st = Pd.strftime_HM t).
Proof.
  intros Hfph (ts & Hts & Hne & ->)%update_graph_inv.
  exists ts, (densified_rows ts df).
  pose proof (timeline_NoDup df fph ts Hfph Hts) as Hnd.
  pose proof (frame_timestamps_eq df ts Hnd) as Hfts.
  unfold figure_of. cbn [sliders fig_frames].
  set (ddf := densified_df df (densified_rows ts df)) in *.
  assert (∀ i st, map (step_value ts) (imap pair (frames df ddf)) !! i = Some st →
            ∃ fr, frames df ddf !! i = Some fr ∧ st = step_value ts (i, fr)) as Hstep.
  { intros i st Hst. rewrite list_lookup_fmap, list_lookup_imap in Hst.
    destruct (frames df ddf !! i) as [fr|]; [|discriminate].
    injection Hst as <-. eauto. }
  assert (∀ i fr, frames df ddf !! i = Some fr →
            name fr = i ∧
            ∃ t, frame_timestamps ddf !! i = Some t ∧
                 data fr = map (plane_marker df) (frame_df ddf t)) as Hframe.
  { intros i fr Hfr. unfold frames in Hfr. rewrite list_lookup_imap in Hfr.
    destruct (frame_timestamps ddf !! i) as [t|]; [|discriminate].
    injection Hfr as <-. eauto. }
  split; [exact Hts|]. split; [apply densify_ok|]. cbv zeta.
  split_and!.
  - exact Hfts.
  - rewrite Hfts. apply StronglySorted_filter, (timeline_sorted df fph ts Hfph Hts).
  - apply length_frames.
  - apply frames_le_timeline.
  - exact Hframe.
  - now rewrite length_map, length_imap.
  - intros i st (fr & Hfr & ->)%Hstep. simpl. now apply Hframe.
  - intros Hall. rewrite Hfts, (filter_all _ _ Hall).
    split; [reflexivity|]. split.
    + now rewrite length_frames, Hfts, (filter_all _ _ Hall).
    + intros i st t (fr & Hfr & ->)%Hstep Ht. simpl. now rewrite Ht.
Qed.

Lemma frame_assembly_witness :
  ∃ fig, update_graph [EX101] 30 = Graph fig ∧
         length (fig_frames fig) = 62%nat.
Proof.
  set (ts := map (Z.add t0700) (Pd.linspace (125 * minute_ns) 62)).
  assert (animation_timestamps [EX101] 30 = Py.Ok ts) as Hts
    by (vm_compute; reflexivity).
  assert (densified_rows ts [EX101] ≠ []) as Hne
    by (vm_compute; discriminate).
  pose proof (update_graph_graph [EX101] 30 ts Hts Hne) as Hout.
  eexists. split; [exact Hout|].
  destruct (frame_assembly [EX101] 30 _ ltac:(lia) Hout)
    as (ts' & rows & Hts' & _ & _ & _ & _ & _ & _ & _ & _ & Hall).
  rewrite Hts in Hts'. injection Hts' as <-.
  replace 62%nat with (length ts) by reflexivity.
  apply Hall. apply Forall_forall. intros t Ht.
  apply Exists_exists. exists EX101. split; [left|].
  apply list_elem_of_fmap in Ht as (v & -> & Hv).
  apply list_elem_of_lookup_1 in Hv as [i Hv].
  apply linspace_range in Hv; [|unfold minute_ns; lia].
  unfold in_interval. simpl. lia.
Defined.

End AssemblyClaims.

Section AssemblyCounterexample.

(** C4 as stated fails on a table with an idle gap (07:00 to 08:00, then
    10:00 to 11:00): the timeline has 120 entries, the figure 60 frames;
    the frame at position 30 shows the items of 10:01 while its slider
    label reads 08:00. *)
Lemma frames_skip_idle_timestamps :
  ∃ ts rows fig t,
    animation_timestamps [early; late] 30 = Py.Ok ts ∧
    densify ts [early; late] = Py.Ok rows ∧
    update_graph [early; late] 30 = Graph fig ∧
    length ts = 120%nat ∧
    length (fig_frames fig) = 60%nat ∧
    frame_timestamps (densified_df [early; late] rows) !! 30%nat = Some t ∧
    Pd.strftime_HM t = "10:01"%string ∧
    label <$> sliders fig !! 30%nat = Some "08:00"%string.
Proof.
  eexists. eexists. eexists. eexists.
  split; [vm_compute; reflexivity|].
  split; [apply densify_ok|].
  split; [apply update_graph_graph; [reflexivity|vm_compute; discriminate]|].
  split; [reflexivity|].
  unfold figure_of. cbn [fig_frames sliders].
  rewrite length_frames, frame_timestamps_rows.
  split; [vm_compute; reflexivity|].
  split; [vm_compute; reflexivity|].
  split; [vm_compute; reflexivity|].
  erewrite slider_label_lookup; [vm_compute; reflexivity|].
  vm_compute. reflexivity.
Qed.

End AssemblyCounterexample.

Section EmptyTable.

(** C5, as the code has it: on an empty table the earliest departure and
    the latest arrival are [NaT], the window length is [nan], and [int]
    raises [ValueError] before any timeline or frame exists; the [except]
    branch turns it into the error message, with no kind of its own. *)
Theorem empty_input_failure (fph : Z) :
  start_time [] = None ∧ end_time [] = None ∧ total_hours [] = None ∧
  total_frames [] fph
    = Py.Raise (Py.ValueError "cannot convert float NaN to integer") ∧
  animation_timestamps [] fph
    = Py.Raise (Py.ValueError "cannot convert float NaN to integer") ∧
  update_graph_try [] fph
    = Py.Raise (Py.ValueError "cannot convert float NaN to integer") ∧
  update_graph [] fph = ErrorDiv "Error: cannot convert float NaN to integer" ∧
  (∀ fig, update_graph [] fph ≠ Graph fig) ∧
  reported_kind (update_graph [] fph) = None.
Proof. split_and!; try reflexivity. intros fig. discriminate. Qed.

(** C5 as stated fails: the outcome on the empty table is the message of
    the generic handler, not an [EmptyDataset] error. *)
Lemma empty_input_not_EmptyDataset :
  update_graph [] 30 = ErrorDiv "Error: cannot convert float NaN to integer" ∧
  reported_kind (update_graph [] 30) ≠ Some EmptyDataset.
Proof. split; [reflexivity|discriminate]. Qed.

End EmptyTable.

Section OutputSize.

Lemma length_rows_at (df : list Flight) (t : Z) :
  (length (rows_at df t) ≤ length df)%nat.
Proof.
  induction df as [|f df IH]; [reflexivity|].
  rewrite rows_at_cons, length_app. destruct (active f t); simpl; lia.
Qed.

Lemma length_densified_rows (ts : list Z) (df : list Flight) :
  (length (densified_rows ts df) ≤ length ts * length df)%nat.
Proof.
  induction ts as [|t ts IH]; [reflexivity|].
  change (densified_rows (t :: ts) df) with (rows_at df t ++ densified_rows ts df).
  rewrite length_app. pose proof (length_rows_at df t). simpl. lia.
Qed.






End OutputSize.

(** ** Facts about dicts, first appearances and colours *)

Section Dict.
Context {V : Type}.
Implicit Types (items : list (string * V)) (d : gmap string V).

Lemma foldl_insert_other items d k :
  k ∉ items.*1 → foldl (fun d kv => <[kv.1 := kv.2]> d) d items !! k = d !! k.
Proof.
  revert d. induction items as [|[k0 v0] items IH]; intros d Hk; [reflexivity|].
  simpl. rewrite IH.
  - apply lookup_insert_ne. intros ->. apply Hk. left.
  - intros Hin. apply Hk. now right.
Qed.

Lemma foldl_insert_NoDup items d k v :
  NoDup items.*1 → (k, v) ∈ items →
  foldl (fun d kv => <[kv.1 := kv.2]> d) d items !! k = Some v.
Proof.
  revert d. induction items as [|[k0 v0] items IH]; intros d Hnd Hin; [inversion Hin|].
  simpl in Hnd. apply NoDup_cons in Hnd as [Hk0 Hnd]. simpl.
  apply elem_of_cons in Hin as [[= -> ->]|Hin].
  - rewrite foldl_insert_other by assumption. apply lookup_insert_eq.
  - now apply IH.
Qed.

Lemma dict_of_lookup items k v :
  NoDup items.*1 → (k, v) ∈ items → dict_of items !! k = Some v.
Proof. apply foldl_insert_NoDup. Qed.

Lemma dict_of_lookup_None items k :
  k ∉ items.*1 → dict_of items !! k = None.
Proof. intros Hk. unfold dict_of. now rewrite foldl_insert_other. Qed.
End Dict.

Lemma imap_keys {A B} (g : nat → B) (l : list A) :
  (imap (fun i a => (a, g i)) l).*1 = l.
Proof.
  revert g. induction l as [|a l IH]; intros g; [reflexivity|].
  rewrite imap_cons. simpl. f_equal. apply (IH (g ∘ S)).
Qed.

Section UniqueOrder.
Context {A : Type} `{EqDecision A}.



Lemma unique_from_elem_2 (seen l : list A) (x : A) :
  x ∈ l → x ∉ seen → x ∈ Pd.unique_from seen l.
Proof.
  revert seen. induction l as [|y l IH]; intros seen Hin Hnot; [inversion Hin|].
  simpl. destruct (bool_decide_reflect (y ∈ seen)) as [Hy|Hy].
  - apply IH; [|assumption]. apply elem_of_cons in Hin as [->|?]; [contradiction|assumption].
  - destruct (decide (x = y)) as [->|Hne]; [left|]. right.
    apply IH.
    + apply elem_of_cons in Hin as [?|?]; [contradiction|assumption].
    + intros [?|?]%elem_of_cons; contradiction.
Qed.


Lemma drop_duplicates_keys {R : Type} (key : R → A) (seen : list A) (rows : list R) :
  map key (Pd.drop_duplicates_from key seen rows) = Pd.unique_from seen (map key rows).
Proof.
  revert seen. induction rows as [|r rows IH]; intros seen; [reflexivity|].
  simpl. destruct (bool_decide (key r ∈ seen)); [apply IH|].
  simpl. f_equal. apply IH.
Qed.
End UniqueOrder.

Section Colours.

Lemma all_airport_locations_codes (df : list Flight) :
  map code (all_airport_locations df) = all_airports df.
Proof.
  unfold all_airport_locations, Pd.drop_duplicates, all_airports, Pd.unique.
  rewrite drop_duplicates_keys, map_app.
  unfold origin_airports, dest_airports. now rewrite !map_map.
Qed.

Lemma all_airports_NoDup (df : list Flight) : NoDup (all_airports df).
Proof. apply unique_from_NoDup. Qed.

Lemma all_airports_elem (df : list Flight) (c : string) :
  c ∈ all_airports df ↔ c ∈ map origin_code df ++ map destination_code df.
Proof.
  split.
  - now intros [? _]%unique_from_elem.
  - intros Hc. apply unique_from_elem_2; [assumption|]. intros H. inversion H.
Qed.

(** The colour of the code at position [i] of the enumeration is the
    palette entry [i mod 15]. *)
Lemma airport_colors_lookup (df : list Flight) (i : nat) (c : string) :
  all_airports df !! i = Some c →
  airport_colors df !! c = Some (palette_color i).
Proof.
  intros Hi. unfold airport_colors. apply dict_of_lookup.
  - rewrite imap_keys. apply all_airports_NoDup.
  - apply (list_elem_of_lookup_2 _ i). now rewrite list_lookup_imap, Hi.
Qed.



Lemma densified_rows_elem (ts : list Z) (df : list Flight) (r : DensifiedRow) :
  r ∈ densified_rows ts df →
  ∃ t f, t ∈ ts ∧ f ∈ df ∧ in_interval f t ∧ r = item_value t f.
Proof.
  intros Hr. apply list_elem_of_In, in_flat_map in Hr as (t & Ht & Hr).
  apply in_flat_map in Hr as (f & Hf & Hr).
  destruct (active f t) eqn:Hact; [|destruct Hr].
  destruct Hr as [<-|[]]. exists t, f.
  rewrite <- !list_elem_of_In in *. now apply active_spec in Hact.
Qed.





End Colours.

(** ** Bearing *)

Section Bearing.

#[local] Open Scope R_scope.


Lemma atan_nonneg (z : R) : 0 <= z → 0 <= atan z.
Proof.
  intros [Hlt| <-].
  - left. rewrite <- atan_0. now apply atan_increasing.
  - rewrite atan_0. lra.
Qed.





Lemma degrees_range (a : R) : - PI < a <= PI → -180 < degrees a <= 180.
Proof.
  pose proof PI_RGT_0 as Hpi. intros [Hlo Hhi]. unfold degrees.
  assert (0 < / PI) as Hinv by now apply Rinv_0_lt_compat.
  assert (a * / PI <= 1) by (apply (Rmult_le_reg_r PI); [lra|]; field_simplify; lra).
  assert (-1 < a * / PI) by (apply (Rmult_lt_reg_r PI); [lra|]; field_simplify; lra).
  unfold Rdiv. lra.
Qed.



Lemma fmod_add (a m : R) : 0 <= a < m → fmod (a + m) m = a.
Proof.
  intros [Hlo Hhi]. unfold fmod.
  assert (0 < / m) by (apply Rinv_0_lt_compat; lra).
  assert (a * / m < 1) by (apply (Rmult_lt_reg_r m); [lra|]; field_simplify; lra).
  assert (0 <= a * / m) by nra.
  assert ((a + m) / m = a * / m + 1) as Heq by (field; lra).
  assert (Int_part ((a + m) / m) = 1%Z) as ->.
  { symmetry. apply Int_part_spec. rewrite Heq. simpl. lra. }
  simpl. ring.
Qed.














End Bearing.


(** * Further properties of the pipeline *)

Section PipelineOutcomes.

(** The two loops return for every timeline and table, and their result
    holds exactly the items of the pairs of a timestamp and a flight active
    at it. *)
Theorem densify_total_and_exact (ts : list Z) (df : list Flight) :
  ∃ rows, densify ts df = Py.Ok rows ∧
    ∀ r, r ∈ rows ↔
         ∃ t f, t ∈ ts ∧ f ∈ df ∧
                departure_time f ≤ t ≤ arrival_time f ∧
                densified_item t f = Py.Ok r.
Proof.
  exists (densified_rows ts df). split; [apply densify_ok|].
  intros r. split.
  - intros (t & f & Ht & Hf & Hact & ->)%densified_rows_elem.
    exists t, f. split_and!; try assumption; try apply Hact.
    apply densified_item_ok.
  - intros (t & f & Ht & Hf & Hact & Hitem).
    rewrite densified_item_ok in Hitem. injection Hitem as <-.
    now apply item_value_in_densified.
Qed.

Lemma animation_timestamps_nonempty (df : list Flight) (fph : Z) :
  df ≠ [] → ∃ ts, animation_timestamps df fph = Py.Ok ts.
Proof.
  intros Hne.
  destruct (start_time_spec df Hne) as (s & Hs & _).
  destruct (end_time_spec df Hne) as (e & He & _).
  eexists. apply (animation_timestamps_eq df fph s e Hs He).
Qed.

(** [update_graph] answers with the error message exactly on the empty
    table: on any other table no exception is raised, in particular the
    slider never reads the timeline past its end. *)
Theorem update_graph_error_iff_empty (df : list Flight) (fph : Z) :
  (∃ msg, update_graph df fph = ErrorDiv msg) ↔ df = [].
Proof.
  split.
  - intros [msg Hmsg]. destruct df as [|f df]; [reflexivity|].
    destruct (animation_timestamps_nonempty (f :: df) fph) as [ts Hts]; [discriminate|].
    rewrite (update_graph_eq _ _ _ Hts) in Hmsg.
    destruct (densified_rows ts (f :: df)); discriminate.
  - intros ->. eexists. reflexivity.
Qed.

Lemma densified_rows_nil (ts : list Z) (df : list Flight) :
  densified_rows ts df = [] ↔ ∀ t f, t ∈ ts → f ∈ df → ¬ in_interval f t.
Proof.
  split.
  - intros Hnil t f Ht Hf Hact.
    pose proof (item_value_in_densified ts df f t Ht Hf Hact) as Hin.
    rewrite Hnil in Hin. inversion Hin.
  - intros Hnone. destruct (densified_rows ts df) as [|r rows] eqn:E; [reflexivity|].
    assert (r ∈ densified_rows ts df) as Hr by (rewrite E; left).
    apply densified_rows_elem in Hr as (t & f & Ht & Hf & Hact & _).
    destruct (Hnone t f Ht Hf Hact).
Qed.

(** The "No flights found" message is returned exactly when the timeline
    exists and no flight is inside its interval at any of its timestamps. *)
Theorem no_flights_iff (df : list Flight) (fph : Z) :
  update_graph df fph = NoFlightsDiv ↔
  ∃ ts, animation_timestamps df fph = Py.Ok ts ∧
        ∀ t f, t ∈ ts → f ∈ df →
               ¬ (departure_time f ≤ t ≤ arrival_time f).
Proof.
  split.
  - intros Hout. destruct (animation_timestamps df fph) as [ts|e] eqn:Hts.
    + exists ts. split; [reflexivity|].
      rewrite (update_graph_eq _ _ _ Hts) in Hout.
      apply densified_rows_nil.
      destruct (densified_rows ts df); [reflexivity|discriminate].
    + unfold update_graph, update_graph_try in Hout. rewrite Hts in Hout.
      discriminate Hout.
  - intros (ts & Hts & Hnone). rewrite (update_graph_eq _ _ _ Hts).
    apply densified_rows_nil in Hnone. now rewrite Hnone.
Qed.

(** A non-empty table in which every flight arrives before it departs is
    answered with "No flights found", not with an error. *)
Theorem inverted_table_no_flights (df : list Flight) (fph : Z) :
  df ≠ [] →
  (∀ f, f ∈ df → arrival_time f < departure_time f) →
  update_graph df fph = NoFlightsDiv.
Proof.
  intros Hne Hinv.
  destruct (animation_timestamps_nonempty df fph Hne) as [ts Hts].
  rewrite (update_graph_eq _ _ _ Hts).
  assert (densified_rows ts df = []) as ->; [|reflexivity].
  apply densified_rows_nil. intros t f _ Hf Hact.
  pose proof (Hinv f Hf). unfold in_interval in Hact. lia.
Qed.

Lemma inverted_table_no_flights_witness :
  update_graph [inverted] 30 = NoFlightsDiv.
Proof.
  apply inverted_table_no_flights; [discriminate|].
  intros f ->%list_elem_of_singleton. simpl. unfold hour_ns. lia.
Defined.

End PipelineOutcomes.


Section TimelineOrder.

(** On a table whose flights do not arrive before they depart, at a density
    of at most one frame per nanosecond, the timeline is strictly
    increasing and every timestamp lies in the window from the earliest
    departure to the latest arrival. *)
Theorem timeline_increasing_in_window (df : list Flight) (fph : Z) (ts : list Z) :
  0 ≤ fph ≤ 3600 * 1000000000 →
  (∀ f, f ∈ df → departure_time f ≤ arrival_time f) →
  animation_timestamps df fph = Py.Ok ts →
  ∃ start end_,
    start_time df = Some start ∧ end_time df = Some end_ ∧ start ≤ end_ ∧
    StronglySorted Z.lt ts ∧
    ∀ t, t ∈ ts → start ≤ t ≤ end_.
Proof.
  intros Hfph Hwf Hts.
  pose proof (timeline_sorted df fph ts Hfph Hts) as Hsorted.
  destruct (animation_timestamps_inv df fph ts Hts) as (s & e & Hs & He & Hmin & Hmax & ->).
  pose proof (window_nonneg df s e Hmin Hmax Hwf) as Hse.
  exists s, e. split_and!; try assumption.
  intros t (v & -> & Hv)%list_elem_of_fmap.
  apply list_elem_of_lookup_1 in Hv as [i Hv].
  apply linspace_range in Hv; lia.
Qed.

Lemma timeline_increasing_in_window_witness :
  ∃ ts, animation_timestamps [EX101] 30 = Py.Ok ts ∧ StronglySorted Z.lt ts.
Proof.
  destruct (animation_timestamps [EX101] 30) as [ts|e] eqn:Hts; [|discriminate Hts].
  exists ts. split; [reflexivity|].
  destruct (timeline_increasing_in_window [EX101] 30 ts) as (s & e & _ & _ & _ & Hsorted & _).
  - lia.
  - intros f ->%list_elem_of_singleton. simpl. unfold minute_ns. lia.
  - exact Hts.
  - exact Hsorted.
Defined.

(** Over a window that is not inverted, a higher density never gives fewer
    frames, and the frame count is at least one and at most one more than
    [windowHours * framesPerHour]. *)
Theorem frame_count_monotone (s e fph fph' : Z) :
  s ≤ e → 0 ≤ fph ≤ fph' →
  1 ≤ frame_count s e fph ≤ frame_count s e fph' ∧
  (inject_Z (frame_count s e fph) <= window_hours s e * inject_Z fph + 1)%Q.
Proof.
  intros Hse Hf. unfold frame_count. split.
  - split; [lia|].
    apply Z.max_le_compat_r, Z.div_le_mono; [lia|]. nia.
  - assert (0 <= window_hours s e * inject_Z fph)%Q as Hnn.
    { rewrite <- (Qmult_0_l (inject_Z fph)).
      apply Qmult_le_compat_r; [|unfold Qle; simpl; lia].
      unfold window_hours, Qdiv. rewrite <- Qmult_assoc.
      rewrite <- (Qmult_0_l (/ inject_Z 1000000000 * / inject_Z 3600)).
      apply Qmult_le_compat_r; [unfold Qle; simpl; lia|]. discriminate. }
    rewrite <- floor_window_hours.
    pose proof (Qfloor_le (window_hours s e * inject_Z fph)) as Hfl.
    destruct (Z.max_spec (Qfloor (window_hours s e * inject_Z fph)) 1) as [[_ ->]|[_ ->]].
    + change (inject_Z 1) with 1%Q. lra.
    + lra.
Qed.

Lemma frame_count_monotone_witness :
  frame_count t0700 (t0700 + 125 * minute_ns) 30
  ≤ frame_count t0700 (t0700 + 125 * minute_ns) 60.
Proof.
  apply (frame_count_monotone t0700 (t0700 + 125 * minute_ns) 30 60).
  - unfold minute_ns. lia.
  - lia.
Defined.

End TimelineOrder.

Section Positions.

Lemma ratio_value_unit (f : Flight) (t : Z) :
  in_interval f t → (0 <= ratio_value f t <= 1)%Q.
Proof.
  intros Hact. unfold in_interval in Hact.
  destruct (Z.lt_ge_cases (departure_time f) (arrival_time f)) as [Hpos|Hle].
  - rewrite (ratio_value_pos f t Hpos). apply quotient_bounds; lia.
  - rewrite ratio_value_zero by lia. split; discriminate.
Qed.

Lemma interpolate_between (a b rho : Q) :
  (0 <= rho <= 1)%Q → between a (a + (b - a) * rho) b.
Proof.
  intros [H0 H1]. unfold between.
  destruct (Qlt_le_dec b a) as [Hba|Hab]; [right|left]; split; nra.
Qed.

(** Every item the loops produce belongs to a flight of the table that is
    active at the item's timestamp, and its position lies between the
    origin and the destination of that flight in each coordinate. *)
Theorem position_between_endpoints
    (ts : list Z) (df : list Flight) (rows : list DensifiedRow) (r : DensifiedRow) :
  densify ts df = Py.Ok rows → r ∈ rows →
  ∃ f, f ∈ df ∧ row_flight_id r = flight_id f ∧
       row_origin_code r = origin_code f ∧
       departure_time f ≤ Frame r ≤ arrival_time f ∧ Frame r ∈ ts ∧
       between (origin_lat f) (Current_Lat r) (dest_lat f) ∧
       between (origin_lon f) (Current_Lon r) (dest_lon f).
Proof.
  rewrite densify_ok. intros [= <-] (t & f & Ht & Hf & Hact & ->)%densified_rows_elem.
  exists f. split_and!; try assumption; try reflexivity.
  - apply Hact.
  - apply Hact.
  - apply interpolate_between, ratio_value_unit, Hact.
  - apply interpolate_between, ratio_value_unit, Hact.
Qed.

Lemma position_between_endpoints_witness :
  ∃ r, densified_item t0700 short_hop = Py.Ok r ∧
       between (origin_lat short_hop) (Current_Lat r) (dest_lat short_hop).
Proof.
  exists (item_value t0700 short_hop). split; [apply densified_item_ok|].
  destruct (position_between_endpoints [t0700] [short_hop]
              (densified_rows [t0700] [short_hop]) (item_value t0700 short_hop))
    as (f & Hf & _ & _ & _ & _ & Hlat & _).
  - apply densify_ok.
  - left.
  - apply list_elem_of_singleton in Hf as ->. exact Hlat.
Defined.

(** A flight of positive duration moves at constant speed: between two
    timestamps its latitude and its longitude change by the whole leg times
    the elapsed share of the duration. *)
Theorem constant_speed (f : Flight) (t1 t2 : Z) :
  departure_time f < arrival_time f →
  ∃ r1 r2, densified_item t1 f = Py.Ok r1 ∧ densified_item t2 f = Py.Ok r2 ∧
    (Current_Lat r2 - Current_Lat r1 ==
       (dest_lat f - origin_lat f)
       * (inject_Z (t2 - t1) / inject_Z (arrival_time f - departure_time f)))%Q ∧
    (Current_Lon r2 - Current_Lon r1 ==
       (dest_lon f - origin_lon f)
       * (inject_Z (t2 - t1) / inject_Z (arrival_time f - departure_time f)))%Q.
Proof.
  intros Hpos. exists (item_value t1 f), (item_value t2 f).
  split; [apply densified_item_ok|]. split; [apply densified_item_ok|].
  assert (¬ (inject_Z (arrival_time f - departure_time f) == 0)%Q) as Hnz
    by (apply inject_Z_nonzero; lia).
  simpl. rewrite !(ratio_value_pos f _ Hpos).
  set (d := arrival_time f - departure_time f) in *.
  unfold Zminus. rewrite !inject_Z_plus, !inject_Z_opp.
  split; field; exact Hnz.
Qed.

Lemma constant_speed_witness :
  ∃ r1 r2, densified_item t0700 EX101 = Py.Ok r1 ∧
           densified_item (t0700 + 125 * minute_ns) EX101 = Py.Ok r2 ∧
           (Current_Lat r2 - Current_Lat r1 == dest_lat EX101 - origin_lat EX101)%Q.
Proof.
  destruct (constant_speed EX101 t0700 (t0700 + 125 * minute_ns))
    as (r1 & r2 & H1 & H2 & Hlat & _).
  - simpl. unfold minute_ns. lia.
  - exists r1, r2. split; [exact H1|]. split; [exact H2|].
    rewrite Hlat. simpl.
    replace (t0700 + 125 * minute_ns - t0700) with (125 * minute_ns) by lia.
    field. discriminate.
Defined.

End Positions.


Section FrameContent.

Lemma rows_at_filter (df : list Flight) (t : Z) :
  rows_at df t = map (item_value t) (filter (fun f => in_interval f t) df).
Proof.
  induction df as [|f df IH]; [reflexivity|].
  rewrite rows_at_cons, filter_cons, IH.
  destruct (active f t) eqn:Hact.
  - apply active_spec in Hact. now rewrite decide_True.
  - rewrite decide_False; [reflexivity|]. rewrite <- active_spec, Hact. discriminate.
Qed.

Lemma rows_at_frame (df : list Flight) (t : Z) (r : DensifiedRow) :
  r ∈ rows_at df t → Frame r = t.
Proof.
  rewrite rows_at_filter. now intros (f & -> & _)%list_elem_of_fmap.
Qed.

Lemma List_filter_all {X : Type} (p : X → bool) (l : list X) :
  (∀ x, x ∈ l → p x = true) → List.filter p l = l.
Proof.
  induction l as [|x l IH]; intros Hall; [reflexivity|]. simpl.
  rewrite (Hall x) by left. f_equal. apply IH. intros y Hy. apply Hall. now right.
Qed.

Lemma List_filter_none {X : Type} (p : X → bool) (l : list X) :
  (∀ x, x ∈ l → p x = false) → List.filter p l = [].
Proof.
  induction l as [|x l IH]; intros Hall; [reflexivity|]. simpl.
  rewrite (Hall x) by left. apply IH. intros y Hy. apply Hall. now right.
Qed.

Lemma List_filter_map {X Y : Type} (p : Y → bool) (g : X → Y) (l : list X) :
  List.filter p (map g l) = map g (List.filter (fun x => p (g x)) l).
Proof.
  induction l as [|x l IH]; [reflexivity|]. simpl.
  destruct (p (g x)); simpl; now rewrite IH.
Qed.

(** The rows selected for a timestamp of a timeline without repetition are
    the items of that timestamp. *)
Lemma filter_frame_rows (df : list Flight) (ts : list Z) (t : Z) :
  NoDup ts → t ∈ ts →
  List.filter (fun r => Frame r =? t) (densified_rows ts df) = rows_at df t.
Proof.
  assert (∀ l, t ∉ l → List.filter (fun r => Frame r =? t) (densified_rows l df) = [])
    as Hrest.
  { intros l Hl. apply List_filter_none.
    intros r (t' & f & Ht' & _ & _ & ->)%densified_rows_elem. simpl.
    apply Z.eqb_neq. intros ->. contradiction. }
  induction 1 as [|t' ts Ht' Hnd IH]; intros Ht; [inversion Ht|].
  change (densified_rows (t' :: ts) df) with (rows_at df t' ++ densified_rows ts df).
  rewrite List.filter_app.
  destruct (decide (t' = t)) as [->|Hne].
  - rewrite Hrest by assumption. rewrite app_nil_r.
    apply List_filter_all. intros r Hr. apply Z.eqb_eq. now apply (rows_at_frame df).
  - apply elem_of_cons in Ht as [->|Ht]; [congruence|].
    rewrite IH by assumption.
    rewrite List_filter_none; [reflexivity|].
    intros r Hr. apply Z.eqb_neq. now rewrite (rows_at_frame df t' r Hr).
Qed.

Lemma frame_df_rows (df : list Flight) (ts : list Z) (t : Z) :
  NoDup ts → t ∈ ts →
  frame_df (densified_df df (densified_rows ts df)) t
  = map (plane_row df) (rows_at df t).
Proof.
  intros Hnd Ht. unfold frame_df, densified_df.
  rewrite List_filter_map. simpl. now rewrite filter_frame_rows.
Qed.

Lemma frame_lookup_of_timestamp (df : list Flight) (ts : list Z)
    (rows : list DensifiedRow) (steps : list SliderStep) (i : nat) (t : Z) :
  frame_timestamps (densified_df df rows) !! i = Some t →
  fig_frames (figure_of df ts rows steps) !! i
  = Some {| name := i;
            data := map (plane_marker df) (frame_df (densified_df df rows) t) |}.
Proof.
  intros Hi. unfold figure_of. cbn [fig_frames]. unfold frames.
  now rewrite list_lookup_imap, Hi.
Qed.

Lemma slider_lookup_of_timestamp (df : list Flight) (ts : list Z)
    (rows : list DensifiedRow) (i : nat) (t : Z) :
  frame_timestamps (densified_df df rows) !! i = Some t →
  sliders (figure_of df ts rows
             (map (step_value ts) (imap pair (frames df (densified_df df rows))))) !! i
  = Some (step_value ts
            (i, {| name := i;
                   data := map (plane_marker df) (frame_df (densified_df df rows) t) |})).
Proof.
  intros Hi. unfold figure_of. cbn [sliders].
  rewrite list_lookup_fmap, list_lookup_imap. unfold frames.
  now rewrite list_lookup_imap, Hi.
Qed.

(** In a figure, at a density of at most one frame per nanosecond, the
    frame at position [i] shows one marker per flight that is active at its
    timestamp, in table order, and is never empty. *)
Theorem frame_content (df : list Flight) (fph : Z) (fig : Figure) (i : nat) (fr : GoFrame) :
  0 ≤ fph ≤ 3600 * 1000000000 →
  update_graph df fph = Graph fig →
  fig_frames fig !! i = Some fr →
  ∃ ts t,
    animation_timestamps df fph = Py.Ok ts ∧ t ∈ ts ∧
    filter (has_active df) ts !! i = Some t ∧
    data fr
    = map (fun f => plane_marker df (plane_row df (item_value t f)))
          (filter (fun f => departure_time f ≤ t ≤ arrival_time f) df) ∧
    data fr ≠ [].
Proof.
  intros Hfph (ts & Hts & _ & ->)%update_graph_inv Hfr.
  pose proof (timeline_NoDup df fph ts Hfph Hts) as Hnd.
  unfold figure_of in Hfr. cbn [fig_frames] in Hfr.
  unfold frames in Hfr.
  rewrite list_lookup_imap, (frame_timestamps_eq df ts Hnd), fmap_Some in Hfr.
  destruct Hfr as (t & Hi & ->). simpl.
  pose proof (list_elem_of_lookup_2 _ _ _ Hi) as Hin.
  apply list_elem_of_filter in Hin as [Hact Ht].
  exists ts, t. split_and!; try assumption.
  - rewrite (frame_df_rows df ts t Hnd Ht), rows_at_filter, !map_map. reflexivity.
  - rewrite (frame_df_rows df ts t Hnd Ht). intros Hnil.
    apply map_eq_nil, map_eq_nil in Hnil. apply frame_block_nonempty in Hact.
    unfold frame_block in Hact. rewrite Hnil in Hact. now apply Hact.
Qed.

Lemma frame_content_witness :
  ∃ fig fr, update_graph [EX101] 30 = Graph fig ∧
            fig_frames fig !! 0%nat = Some fr ∧ length (data fr) = 1%nat.
Proof.
  set (ts := map (Z.add t0700) (Pd.linspace (125 * minute_ns) 62)).
  assert (animation_timestamps [EX101] 30 = Py.Ok ts) as Hts
    by (vm_compute; reflexivity).
  assert (densified_rows ts [EX101] ≠ []) as Hne
    by (vm_compute; discriminate).
  pose proof (update_graph_graph [EX101] 30 ts Hts Hne) as Hout.
  assert (frame_timestamps (densified_df [EX101] (densified_rows ts [EX101])) !! 0%nat
          = Some t0700) as H0
    by (rewrite frame_timestamps_rows; vm_compute; reflexivity).
  pose proof (frame_lookup_of_timestamp [EX101] ts _
                (map (step_value ts)
                   (imap pair (frames [EX101]
                      (densified_df [EX101] (densified_rows ts [EX101])))))
                0%nat t0700 H0) as Hfr.
  eexists. eexists. split; [exact Hout|]. split; [exact Hfr|].
  destruct (frame_content [EX101] 30 _ 0%nat _ ltac:(lia) Hout Hfr)
    as (ts' & t & _ & _ & _ & Hdata & Hnil).
  rewrite Hdata, length_map. rewrite Hdata in Hnil.
  pose proof (length_filter (fun f => departure_time f ≤ t ≤ arrival_time f) [EX101]) as Hlen.
  destruct (filter _ [EX101]) as [|g [|g' l]]; [contradiction|reflexivity|].
  simpl in Hlen. lia.
Defined.

End FrameContent.


Section InitialTrace.

Lemma foldl_min_head (x : Z) (l : list Z) :
  Forall (Z.le x) l → foldl Z.min x l = x.
Proof.
  induction 1 as [|y l Hy _ IH]; [reflexivity|].
  simpl. now rewrite Z.min_l.
Qed.

Lemma frame_column_sorted (df : list Flight) (ts : list Z) :
  StronglySorted Z.lt ts → StronglySorted Z.le (flat_map (frame_block df) ts).
Proof.
  induction 1 as [|t ts Hs IH Hall]; [constructor|]. simpl.
  apply StronglySorted_app_2; [| |exact IH].
  - intros x1 x2 ->%frame_block_same Hx2.
    apply list_elem_of_In, in_flat_map in Hx2 as (t' & Ht' & Hx2).
    apply list_elem_of_In in Ht', Hx2. apply frame_block_same in Hx2 as ->.
    rewrite Forall_forall in Hall. pose proof (Hall t' Ht'). lia.
  - assert (∀ l, (∀ x, x ∈ l → x = t) → StronglySorted Z.le l) as Hconst.
    { induction l as [|y l IHl]; intros Hl; constructor.
      - apply IHl. intros x Hx. apply Hl. now right.
      - apply Forall_forall. intros x Hx.
        rewrite (Hl y) by left. rewrite (Hl x) by now right. lia. }
    apply Hconst. intros x. apply frame_block_same.
Qed.

Lemma unique_head {A : Type} `{EqDecision A} (x : A) (l : list A) :
  head (Pd.unique (x :: l)) = Some x.
Proof. reflexivity. Qed.

(** In a figure, at a density of at most one frame per nanosecond, the
    trace drawn before the animation starts is the content of the frame at
    position 0. *)
Theorem initial_trace_is_first_frame (df : list Flight) (fph : Z) (fig : Figure) :
  0 ≤ fph ≤ 3600 * 1000000000 →
  update_graph df fph = Graph fig →
  ∃ fr, fig_frames fig !! 0%nat = Some fr ∧ name fr = 0%nat ∧ planes fig = data fr.
Proof.
  intros Hfph (ts & Hts & Hne & ->)%update_graph_inv.
  pose proof (timeline_sorted df fph ts Hfph Hts) as Hsorted.
  pose proof (frame_column_sorted df ts Hsorted) as Hcol.
  rewrite <- frame_column in Hcol.
  unfold figure_of. cbn [fig_frames planes]. unfold frames, initial_frame_df.
  rewrite list_lookup_imap, frame_timestamps_rows, densified_df_frames.
  destruct (map Frame (densified_rows ts df)) as [|x col] eqn:Ecol.
  { apply map_eq_nil in Ecol. contradiction. }
  apply StronglySorted_inv in Hcol as [_ Hall].
  rewrite <- head_lookup, unique_head. simpl.
  rewrite (foldl_min_head x col Hall).
  eexists. split; [reflexivity|]. split; reflexivity.
Qed.

Lemma initial_trace_is_first_frame_witness :
  ∃ fig fr, update_graph [EX101] 30 = Graph fig ∧
            fig_frames fig !! 0%nat = Some fr ∧ planes fig = data fr.
Proof.
  set (ts := map (Z.add t0700) (Pd.linspace (125 * minute_ns) 62)).
  assert (animation_timestamps [EX101] 30 = Py.Ok ts) as Hts
    by (vm_compute; reflexivity).
  assert (densified_rows ts [EX101] ≠ []) as Hne
    by (vm_compute; discriminate).
  pose proof (update_graph_graph [EX101] 30 ts Hts Hne) as Hout.
  destruct (initial_trace_is_first_frame [EX101] 30 _ ltac:(lia) Hout)
    as (fr & Hfr & _ & Hplanes).
  eexists. exists fr. split; [exact Hout|]. split; [exact Hfr|exact Hplanes].
Defined.

(** In a figure there is one slider step per frame; step [i] shows frame
    [i] and its label is the formatted time of the timeline entry at
    position [i]. *)
Theorem slider_steps_follow_timeline (df : list Flight) (fph : Z) (fig : Figure) :
  update_graph df fph = Graph fig →
  ∃ ts, animation_timestamps df fph = Py.Ok ts ∧
        length (sliders fig) = length (fig_frames fig) ∧
        (length (fig_frames fig) ≤ length ts)%nat ∧
        ∀ i st, sliders fig !! i = Some st →
                step_frame st = i ∧
                (∃ fr, fig_frames fig !! i = Some fr ∧ name fr = i) ∧
                ∃ t, ts !! i = Some t ∧ label st = Pd.strftime_HM t.
Proof.
  intros (ts & Hts & _ & ->)%update_graph_inv. exists ts.
  unfold figure_of. cbn [fig_frames sliders].
  set (ddf := densified_df df (densified_rows ts df)).
  pose proof (frames_le_timeline df ts) as Hle. fold ddf in Hle.
  split_and!; [assumption| |assumption|].
  - now rewrite length_map, length_imap.
  - intros i st Hst. rewrite list_lookup_fmap, list_lookup_imap in Hst.
    destruct (frames df ddf !! i) as [fr|] eqn:Hfr; [|discriminate].
    injection Hst as <-.
    assert (name fr = i) as Hname.
    { unfold frames in Hfr. rewrite list_lookup_imap, fmap_Some in Hfr.
      now destruct Hfr as (t & _ & ->). }
    apply lookup_lt_Some in Hfr as Hlt.
    destruct (lookup_lt_is_Some_2 ts i ltac:(lia)) as [t Ht].
    split_and!; [exact Hname|eauto|].
    exists t. split; [exact Ht|]. unfold step_value. simpl. now rewrite Ht.
Qed.

Lemma slider_steps_follow_timeline_witness :
  ∃ fig, update_graph [EX101] 30 = Graph fig ∧
         length (sliders fig) = length (fig_frames fig).
Proof.
  set (ts := map (Z.add t0700) (Pd.linspace (125 * minute_ns) 62)).
  assert (animation_timestamps [EX101] 30 = Py.Ok ts) as Hts
    by (vm_compute; reflexivity).
  assert (densified_rows ts [EX101] ≠ []) as Hne
    by (vm_compute; discriminate).
  pose proof (update_graph_graph [EX101] 30 ts Hts Hne) as Hout.
  destruct (slider_steps_follow_timeline [EX101] 30 _ Hout) as (ts' & _ & Hlen & _).
  eexists. split; [exact Hout|exact Hlen].
Defined.

End InitialTrace.

Section Counting.

Lemma sum_zero {X : Type} (l : list X) : sum_list_with (fun _ => 0%nat) l = 0%nat.
Proof. induction l as [|x l IH]; [reflexivity|exact IH]. Qed.

Lemma count_swap (ts : list Z) (df : list Flight) :
  sum_list_with (fun t => length (filter (fun f => in_interval f t) df)) ts
  = sum_list_with (fun f => length (filter (in_interval f) ts)) df.
Proof.
  induction df as [|f df IH].
  - simpl. apply sum_zero.
  - simpl. rewrite <- IH. clear IH.
    induction ts as [|t ts IHts]; [reflexivity|].
    simpl. rewrite !(filter_cons _ t), !(filter_cons _ f).
    destruct (decide (in_interval f t)); simpl; lia.
Qed.

(** The number of items the loops produce is the sum over the timestamps
    of the number of flights active at each, and equally the sum over the
    flights of the number of timestamps inside the interval of each; it is
    at most the number of timestamps times the number of flights. *)
Theorem densified_count (ts : list Z) (df : list Flight) :
  ∃ rows, densify ts df = Py.Ok rows ∧
    length rows
    = sum_list_with
        (fun t => length (filter (fun f => departure_time f ≤ t ≤ arrival_time f) df)) ts ∧
    length rows
    = sum_list_with
        (fun f => length (filter (fun t => departure_time f ≤ t ≤ arrival_time f) ts)) df ∧
    (length rows ≤ length ts * length df)%nat.
Proof.
  exists (densified_rows ts df). split; [apply densify_ok|].
  assert (length (densified_rows ts df)
          = sum_list_with (fun t => length (filter (fun f => in_interval f t) df)) ts) as Hsum.
  { induction ts as [|t ts IH]; [reflexivity|].
    change (densified_rows (t :: ts) df) with (rows_at df t ++ densified_rows ts df).
    rewrite length_app, IH. simpl. f_equal.
    clear IH. induction df as [|f df IHdf]; [reflexivity|].
    rewrite rows_at_cons, length_app, IHdf, filter_cons.
    destruct (active f t) eqn:Hact.
    - apply active_spec in Hact. now rewrite decide_True.
    - rewrite decide_False; [reflexivity|]. rewrite <- active_spec, Hact. discriminate. }
  split_and!.
  - exact Hsum.
  - rewrite Hsum. apply count_swap.
  - apply length_densified_rows.
Qed.

End Counting.


Section StaticLayer.

Lemma drop_duplicates_from_app {R K : Type} `{EqDecision K} (key : R → K)
    (seen : list K) (l1 l2 : list R) :
  Pd.drop_duplicates_from key seen (l1 ++ l2)
  = Pd.drop_duplicates_from key seen l1
    ++ Pd.drop_duplicates_from key (map key l1 ++ seen) l2.
Proof.
  assert (∀ l s s', (∀ x, x ∈ s ↔ x ∈ s') →
            Pd.drop_duplicates_from key s l = Pd.drop_duplicates_from key s' l) as Hproper.
  { induction l as [|r l IH]; intros s s' Hs; [reflexivity|]. simpl.
    rewrite (bool_decide_ext _ _ (Hs (key r))).
    destruct (bool_decide (key r ∈ s')); [now apply IH|].
    f_equal. apply IH. intros x. rewrite !elem_of_cons, Hs. reflexivity. }
  revert seen. induction l1 as [|r l1 IH]; intros seen; [reflexivity|].
  simpl. destruct (bool_decide_reflect (key r ∈ seen)) as [Hr|Hr].
  - rewrite IH. f_equal. apply Hproper. intros x.
    rewrite elem_of_cons, !elem_of_app. split; [tauto|]. intros [->|?]; tauto.
  - simpl. f_equal. rewrite IH. f_equal. apply Hproper. intros x.
    rewrite !elem_of_cons, !elem_of_app, elem_of_cons. tauto.
Qed.

Lemma drop_duplicates_from_elem {R K : Type} `{EqDecision K} (key : R → K)
    (seen : list K) (l : list R) (r : R) :
  r ∈ Pd.drop_duplicates_from key seen l → r ∈ l ∧ key r ∉ seen.
Proof.
  revert seen. induction l as [|y l IH]; intros seen Hr; [inversion Hr|].
  simpl in Hr. destruct (bool_decide_reflect (key y ∈ seen)) as [Hy|Hy].
  - destruct (IH seen Hr). split; [now right|assumption].
  - apply elem_of_cons in Hr as [->|Hr]; [split; [left|assumption]|].
    destruct (IH _ Hr) as [Hin Hnot]. split; [now right|].
    intros Hs. apply Hnot. now right.
Qed.

(** The static layer has one marker per distinct airport code, placed at
    the coordinates of the first row that names the code, the origin
    columns of all rows coming before the destination columns. *)
Theorem static_layer_first_occurrence (df : list Flight) :
  let locations := origin_airports df ++ dest_airports df in
  NoDup (map code (all_airport_locations df)) ∧
  length (static_airports df) = length (all_airports df) ∧
  (∀ a, a ∈ all_airport_locations df → a ∈ locations) ∧
  (∀ c, c ∈ map code locations → c ∈ map code (all_airport_locations df)) ∧
  (∀ before a after,
     locations = before ++ a :: after → code a ∉ map code before →
     all_airport_locations df !! length (Pd.unique (map code before)) = Some a) ∧
  (∀ before a after,
     locations = before ++ a :: after → code a ∈ map code before →
     ∀ i, all_airport_locations df !! i = Some a → a ∈ before).
Proof.
  cbv zeta. split_and!.
  - rewrite all_airport_locations_codes. apply all_airports_NoDup.
  - unfold static_airports. now rewrite length_map, <- all_airport_locations_codes, length_map.
  - now intros a [? _]%drop_duplicates_from_elem.
  - intros c Hc. rewrite all_airport_locations_codes. apply all_airports_elem.
    unfold origin_airports, dest_airports in Hc.
    now rewrite map_app, !map_map in Hc.
  - intros before a after Hloc Hnew.
    unfold all_airport_locations, Pd.drop_duplicates. rewrite Hloc.
    rewrite drop_duplicates_from_app. simpl.
    rewrite bool_decide_eq_false_2 by (rewrite app_nil_r; exact Hnew).
    rewrite lookup_app_r.
    + replace (length (Pd.unique (map code before)))
        with (length (Pd.drop_duplicates_from code [] before)).
      * now rewrite Nat.sub_diag.
      * rewrite <- (length_map code), drop_duplicates_keys. reflexivity.
    + rewrite <- (length_map code (Pd.drop_duplicates_from code [] before)).
      rewrite drop_duplicates_keys. reflexivity.
  - intros before a after Hloc Hold i Hi.
    apply list_elem_of_lookup_2 in Hi.
    unfold all_airport_locations, Pd.drop_duplicates in Hi. rewrite Hloc in Hi.
    rewrite drop_duplicates_from_app in Hi.
    apply elem_of_app in Hi as [Hi|Hi].
    + now apply drop_duplicates_from_elem in Hi as [? _].
    + apply drop_duplicates_from_elem in Hi as [_ Hnot].
      exfalso. apply Hnot. rewrite app_nil_r. exact Hold.
Qed.

Lemma static_layer_first_occurrence_witness :
  all_airport_locations [EX101] !! 0%nat
  = Some (mkAirport "DEL" (origin_lat EX101) (origin_lon EX101)).
Proof.
  pose proof (static_layer_first_occurrence [EX101]) as H. cbv zeta in H.
  destruct H as (_ & _ & _ & _ & Hfirst & _).
  apply (Hfirst [] _ [mkAirport "BOM" (dest_lat EX101) (dest_lon EX101)]).
  - reflexivity.
  - intros H. inversion H.
Defined.

End StaticLayer.

Section BearingMap.

(** When several rows share a flight id, the heading kept for the id, and
    shown by every marker that carries it, is that of the last such row. *)
Theorem bearing_map_last_row (before after : list Flight) (f : Flight) :
  flight_id f ∉ map flight_id after →
  bearing_map (before ++ f :: after) !! flight_id f = Some (flight_bearing f) ∧
  ∀ t g, g ∈ before ++ f :: after → flight_id g = flight_id f →
         m_angle (plane_marker (before ++ f :: after)
                    (plane_row (before ++ f :: after) (item_value t g)))
         = Some (flight_bearing f).
Proof.
  intros Hlast.
  assert (bearing_map (before ++ f :: after) !! flight_id f = Some (flight_bearing f)) as Hmap.
  { unfold bearing_map, dict_of. rewrite map_app, foldl_app. simpl.
    rewrite foldl_insert_other.
    - apply lookup_insert_eq.
    - rewrite <- list_fmap_compose. exact Hlast. }
  split; [exact Hmap|]. intros t g _ Hid. simpl. now rewrite Hid.
Qed.

Lemma bearing_map_last_row_witness :
  bearing_map [EX101; short_hop] !! flight_id short_hop
  = Some (flight_bearing short_hop).
Proof.
  apply (bearing_map_last_row [EX101] [] short_hop). intros H. inversion H.
Defined.

End BearingMap.

Section Palette.

(** The palette holds the same colour at positions 9 and 13, so the tenth
    and the fourteenth airport of a table are drawn in one colour although
    fewer than sixteen airports are present. *)
Theorem palette_repeats_before_wrap (df : list Flight) (a b : string) :
  all_airports df !! 9%nat = Some a →
  all_airports df !! 13%nat = Some b →
  a ≠ b ∧ airport_colors df !! a = airport_colors df !! b ∧
  airport_colors df !! a = Some "#85C1E9"%string.
Proof.
  intros Ha Hb. split_and!.
  - intros ->. pose proof (all_airports_NoDup df) as Hnd.
    rewrite NoDup_alt in Hnd. pose proof (Hnd _ _ _ Ha Hb). lia.
  - rewrite (airport_colors_lookup df _ _ Ha), (airport_colors_lookup df _ _ Hb).
    reflexivity.
  - now rewrite (airport_colors_lookup df _ _ Ha).
Qed.

Lemma palette_repeats_before_wrap_witness :
  airport_colors hub_table !! "A09"%string = airport_colors hub_table !! "A13"%string.
Proof.
  apply (palette_repeats_before_wrap hub_table "A09" "A13");
    vm_compute; reflexivity.
Defined.

End Palette.


Section Labels.

Lemma strftime_day (t k : Z) :
  Pd.strftime_HM (t + k * day_ns) = Pd.strftime_HM t.
Proof.
  unfold Pd.strftime_HM, day_ns, hour_ns.
  replace (t + k * (24 * 3600000000000))
    with (t + (k * 24) * 3600000000000) at 1 by lia.
  replace (t + k * (24 * 3600000000000))
    with (t + (k * 1440) * 60000000000) by lia.
  rewrite !Z_div_plus_full by lia.
  rewrite Z_mod_plus_full.
  replace (t / 60000000000 + k * 1440) with (t / 60000000000 + (k * 24) * 60) by lia.
  rewrite Z_mod_plus_full. reflexivity.
Qed.

Lemma strftime_minute (t t' : Z) :
  t / 60000000000 = t' / 60000000000 → Pd.strftime_HM t = Pd.strftime_HM t'.
Proof.
  intros Hmin. unfold Pd.strftime_HM.
  replace 3600000000000 with (60000000000 * 60) by lia.
  rewrite <- !Z.div_div by lia. now rewrite Hmin.
Qed.

Lemma slider_label_at (df : list Flight) (fph : Z) (fig : Figure)
    (ts : list Z) (i : nat) (st : SliderStep) (t : Z) :
  update_graph df fph = Graph fig →
  animation_timestamps df fph = Py.Ok ts →
  sliders fig !! i = Some st → ts !! i = Some t →
  label st = Pd.strftime_HM t.
Proof.
  intros (ts' & Hts' & _ & ->)%update_graph_inv Hts Hst Ht.
  rewrite Hts in Hts'. injection Hts' as <-.
  unfold figure_of in Hst. cbn [sliders] in Hst.
  rewrite list_lookup_fmap, fmap_Some in Hst. destruct Hst as (p & Hp & ->).
  rewrite list_lookup_imap, fmap_Some in Hp. destruct Hp as (fr & _ & ->).
  unfold step_value. simpl. now rewrite Ht.
Qed.

(** A slider label shows the hour and the minute only: two steps whose
    timeline entries are a whole number of days apart, or fall in the same
    minute, carry the same label. *)
Theorem slider_labels_repeat
    (df : list Flight) (fph : Z) (fig : Figure) (ts : list Z)
    (i j : nat) (si sj : SliderStep) (ti tj : Z) :
  update_graph df fph = Graph fig →
  animation_timestamps df fph = Py.Ok ts →
  sliders fig !! i = Some si → ts !! i = Some ti →
  sliders fig !! j = Some sj → ts !! j = Some tj →
  ((∃ k, tj = ti + k * day_ns) ∨ ti / minute_ns = tj / minute_ns) →
  label si = label sj.
Proof.
  intros Hout Hts Hsi Hti Hsj Htj Hrel.
  rewrite (slider_label_at df fph fig ts i si ti Hout Hts Hsi Hti).
  rewrite (slider_label_at df fph fig ts j sj tj Hout Hts Hsj Htj).
  destruct Hrel as [[k ->]|Hmin].
  - symmetry. apply strftime_day.
  - now apply strftime_minute.
Qed.

Lemma slider_labels_repeat_witness :
  ∃ fig si sj,
    update_graph [long_haul 23] 1 = Graph fig ∧
    sliders fig !! 0%nat = Some si ∧ sliders fig !! 23%nat = Some sj ∧
    label si = label sj.
Proof.
  set (ts := map (Z.add t0700) (Pd.linspace (24 * hour_ns) 24)).
  assert (animation_timestamps [long_haul 23] 1 = Py.Ok ts) as Hts
    by (vm_compute; reflexivity).
  assert (densified_rows ts [long_haul 23] ≠ []) as Hne
    by (vm_compute; discriminate).
  pose proof (update_graph_graph [long_haul 23] 1 ts Hts Hne) as Hout.
  assert (frame_timestamps (densified_df [long_haul 23] (densified_rows ts [long_haul 23]))
            !! 0%nat = Some t0700) as H0
    by (rewrite frame_timestamps_rows; vm_compute; reflexivity).
  assert (frame_timestamps (densified_df [long_haul 23] (densified_rows ts [long_haul 23]))
            !! 23%nat = Some (t0700 + day_ns)) as H23
    by (rewrite frame_timestamps_rows; vm_compute; reflexivity).
  pose proof (slider_lookup_of_timestamp [long_haul 23] ts _ _ _ H0) as Hs0.
  pose proof (slider_lookup_of_timestamp [long_haul 23] ts _ _ _ H23) as Hs23.
  eexists. eexists. eexists.
  split; [exact Hout|]. split; [exact Hs0|]. split; [exact Hs23|].
  apply (slider_labels_repeat [long_haul 23] 1 _ ts 0%nat 23%nat _ _
           t0700 (t0700 + day_ns) Hout Hts Hs0 eq_refl Hs23 eq_refl).
  left. exists 1. lia.
Defined.

End Labels.

Section ColumnCheck.

Lemma missing_columns_elem (columns : list string) (col : string) :
  col ∈ missing_columns columns ↔ col ∈ required_columns ∧ col ∉ columns.
Proof. unfold missing_columns. rewrite list_elem_of_filter. tauto. Qed.

(** The column check lets the pipeline run exactly when every required
    column is among the columns of the upload, whatever other columns there
    are; otherwise it answers with a message that lists the missing columns
    in the order of the required ones.  The columns of the downloadable
    template pass the check. *)
Theorem check_columns_spec (columns : list string) :
  (check_columns columns = None
   ↔ ∀ col, col ∈ required_columns → col ∈ columns) ∧
  (∀ out, check_columns columns = Some out →
     let missing := missing_columns columns in
     out = ErrorDiv ("Error: The uploaded file is missing columns: "
                     +:+ join_comma missing) ∧
     missing ≠ [] ∧ sublist missing required_columns ∧
     ∀ col, col ∈ missing ↔ col ∈ required_columns ∧ col ∉ columns) ∧
  check_columns (template_columns ++ columns) = None.
Proof.
  split_and!.
  - unfold check_columns. split.
    + intros Hnone col Hcol.
      destruct (missing_columns columns) as [|c l] eqn:E; [|discriminate].
      destruct (decide (col ∈ columns)) as [Hin|Hout]; [assumption|].
      assert (col ∈ missing_columns columns) as Hm by now apply missing_columns_elem.
      rewrite E in Hm. inversion Hm.
    + intros Hall. destruct (missing_columns columns) as [|c l] eqn:E; [reflexivity|].
      assert (c ∈ missing_columns columns) as Hm by (rewrite E; left).
      apply missing_columns_elem in Hm as [Hreq Hnot]. destruct (Hnot (Hall c Hreq)).
  - intros out Hout. cbv zeta. unfold check_columns in Hout.
    destruct (missing_columns columns) as [|c l] eqn:E; [discriminate|].
    injection Hout as <-. split_and!.
    + reflexivity.
    + discriminate.
    + rewrite <- E. apply sublist_filter.
    + intros col. rewrite <- E. apply missing_columns_elem.
  - unfold check_columns.
    assert (missing_columns (template_columns ++ columns) = []) as ->; [|reflexivity].
    destruct (missing_columns (template_columns ++ columns)) as [|c l] eqn:E; [reflexivity|].
    assert (c ∈ missing_columns (template_columns ++ columns)) as Hm by (rewrite E; left).
    apply missing_columns_elem in Hm as [Hreq Hnot].
    exfalso. apply Hnot, elem_of_app. left.
    unfold required_columns in Hreq. unfold template_columns.
    repeat (apply elem_of_cons in Hreq as [->|Hreq]; [set_solver|]).
    inversion Hreq.
Qed.

Lemma check_columns_spec_witness :
  check_columns ["flight_id"; "origin_code"]%string
  = Some (ErrorDiv "Error: The uploaded file is missing columns: origin_lat, origin_lon, destination_code, dest_lat, dest_lon, departure_time, arrival_time").
Proof.
  destruct (check_columns ["flight_id"; "origin_code"]%string) as [out|] eqn:E.
  - destruct (check_columns_spec ["flight_id"; "origin_code"]%string) as (_ & Hsome & _).
    destruct (Hsome out E) as (-> & _). vm_compute. reflexivity.
  - vm_compute in E. discriminate E.
Defined.

End ColumnCheck.



Section Meridian.

#[local] Open Scope R_scope.

Lemma atan2_zero_nonneg (x : R) : 0 <= x → atan2 0 x = 0.
Proof.
  intros Hx. unfold atan2.
  destruct (Rlt_dec 0 x) as [Hpos|Hnpos].
  - replace (0 / x) with 0 by (field; lra). apply atan_0.
  - destruct (Rlt_dec x 0) as [Hneg|_]; [lra|].
    destruct (Rlt_dec 0 0) as [H|_]; [lra|]. reflexivity.
Qed.

Lemma atan2_zero_neg (x : R) : x < 0 → atan2 0 x = PI.
Proof.
  intros Hx. unfold atan2.
  destruct (Rlt_dec 0 x) as [Hpos|_]; [lra|].
  destruct (Rlt_dec x 0) as [_|Hn]; [|contradiction].
  destruct (Rle_dec 0 0) as [_|Hn]; [|lra].
  replace (0 / x) with 0 by (field; lra). rewrite atan_0. ring.
Qed.

Lemma meridian_components (lat1 lat2 lon : R) :
  calculate_bearing lat1 lon lat2 lon
  = fmod (degrees (atan2 0 (sin (radians lat2 - radians lat1))) + 360) 360.
Proof.
  unfold calculate_bearing. cbv zeta.
  replace (radians lon - radians lon) with 0 by ring.
  rewrite sin_0, cos_0, sin_minus.
  replace (0 * cos (radians lat2)) with 0 by ring.
  replace (cos (radians lat1) * sin (radians lat2)
           - sin (radians lat1) * cos (radians lat2) * 1)
    with (sin (radians lat2) * cos (radians lat1)
          - cos (radians lat2) * sin (radians lat1)) by ring.
  reflexivity.
Qed.

(** Along a meridian the heading is due north, 0, when the destination is
    not south of the origin (so also when the two points coincide), and due
    south, 180, when it is south of it. *)
Theorem bearing_along_meridian (lat1 lat2 lon : R) :
  -90 <= lat1 <= 90 → -90 <= lat2 <= 90 →
  (lat1 <= lat2 → calculate_bearing lat1 lon lat2 lon = 0) ∧
  (lat2 < lat1 → lat1 - lat2 < 180 → calculate_bearing lat1 lon lat2 lon = 180).
Proof.
  intros H1 H2. pose proof PI_RGT_0 as Hpi.
  rewrite meridian_components.
  assert (radians lat2 - radians lat1 = (lat2 - lat1) * (PI / 180)) as Hdiff
    by (unfold radians; field).
  split.
  - intros Hle. rewrite atan2_zero_nonneg.
    + replace (degrees 0) with 0 by (unfold degrees; field; apply PI_neq0).
      apply fmod_add. lra.
    + apply sin_ge_0; rewrite Hdiff; [nra|].
      assert ((lat2 - lat1) * (PI / 180) <= 180 * (PI / 180)) by nra. lra.
  - intros Hlt Hfar. rewrite atan2_zero_neg.
    + replace (degrees PI) with 180 by (unfold degrees; field; apply PI_neq0).
      apply fmod_add. lra.
    + apply sin_lt_0_var; rewrite Hdiff; [|nra].
      assert (-180 * (PI / 180) < (lat2 - lat1) * (PI / 180)) by nra. lra.
Qed.

Lemma bearing_along_meridian_witness : calculate_bearing 10 20 (-10) 20 = 180.
Proof.
  apply (bearing_along_meridian 10 (-10) 20); lra.
Defined.

End Meridian.
